(** * temba/api/v2/serializers.py: read and write serializers of the v2 API

    A shallow embedding of the validation and projection logic of
    [temba/api/v2/serializers.py].  Python dictionaries are finite maps with
    string keys, a raised [serializers.ValidationError] is the [Raise] branch
    of [result], and the ambient request context ([self.context],
    [self.instance]) is passed explicitly. *)

From Stdlib Require Import ZArith.
From stdpp Require Import gmap strings list fin_maps.

Set Warnings "-register-all".

Open Scope string_scope.

(** ** Python values *)

(** The values that flow through the serializers: JSON scalars, lists and
    objects of the request body, and model instances (Flow, Contact, Campaign,
    ...) produced by the field adapters, identified by primary key. *)
Inductive pyval : Type :=
| PyNone
| PyBool (b : bool)
| PyInt (n : Z)
| PyStr (s : string)
| PyList (xs : list pyval)
| PyDict (kvs : gmap string pyval)
| PyObj (pk : Z).

(** Python truthiness, as used by [if x], [not x], [x and y], [x or y]. *)
Definition truthy (v : pyval) : bool :=
  match v with
  | PyNone => false
  | PyBool b => b
  | PyInt n => negb (n =? 0)%Z
  | PyStr s => negb (String.eqb s "")
  | PyList xs => match xs with [] => false | _ => true end
  | PyDict kvs => match map_to_list kvs with [] => false | _ => true end
  | PyObj _ => true
  end.

(** [isinstance(v, dict)] *)
Definition is_dict (v : pyval) : bool :=
  match v with PyDict _ => true | _ => false end.

(** [d.get(k)]: the value under [k], [None] when the key is missing. *)
Definition dict_get (d : gmap string pyval) (k : string) : pyval :=
  default PyNone (d !! k).

(** [d.get(k, dflt)] *)
Definition dict_get_or (d : gmap string pyval) (k : string) (dflt : pyval) : pyval :=
  default dflt (d !! k).

(** [a + b]: list concatenation, string concatenation, integer addition
    (booleans count as 0 and 1); [None] stands for the [TypeError] of any other
    pair of operands. *)
Definition py_int (v : pyval) : option Z :=
  match v with
  | PyInt n => Some n
  | PyBool b => Some (if b then 1 else 0)%Z
  | _ => None
  end.

Definition py_add (a b : pyval) : option pyval :=
  match a, b with
  | PyList xs, PyList ys => Some (PyList (xs ++ ys)%list)
  | PyStr x, PyStr y => Some (PyStr (x ++ y))
  | _, _ =>
      match py_int a, py_int b with
      | Some x, Some y => Some (PyInt (x + y))
      | _, _ => None
      end
  end.

(** ** Validation errors *)

(** The [detail] of a [serializers.ValidationError]: a single message, or a
    dictionary from field name to messages. *)
Inductive error_detail : Type :=
| Message (msg : string)
| Detail (errors : list (string * list string)).

Inductive result (A : Type) : Type :=
| Return (a : A)
| Raise (e : error_detail).
Arguments Return {A} a.
Arguments Raise {A} e.

Definition raises {A} (r : result A) : Prop := ∃ e, r = Raise e.

#[global] Instance result_ret : MRet result := λ A a, Return a.
#[global] Instance result_bind : MBind result := λ A B k r,
  match r with
  | Return a => k a
  | Raise e => Raise e
  end.

(** ** Domain models

    The attributes of the externally owned entities that the serializers read
    or assign.  A bound model instance is always truthy. *)

Module Org.
Record t : Type := {
  pk : Z;
  is_anon : bool;
  is_suspended : bool          (* [org.is_suspended()] *)
}.
End Org.

Module ContactField.
Record t : Type := {
  key : string;
  label : string;
  value_type : string
}.
End ContactField.

Module ContactGroup.
Record t : Type := {
  uuid : string;
  name : string;
  is_dynamic : bool
}.
End ContactGroup.

Module ContactURN.
Record t : Type := { urn : string }.
End ContactURN.

Module Contact.
Record t : Type := {
  uuid : string;
  name : option string;
  language : option string;
  is_active : bool;
  is_blocked : bool;
  is_stopped : bool;
  get_urns : list ContactURN.t;                          (* [obj.get_urns()] *)
  prefetched_user_groups : option (list ContactGroup.t); (* [hasattr] when [Some] *)
  user_groups : list ContactGroup.t;                     (* [obj.user_groups.all()] *)
  get_field : string → pyval;                            (* [obj.get_field(key)] *)
  created_on : pyval;
  modified_on : pyval
}.

(** Attribute assignments [self.instance.name = v], [self.instance.language = v]. *)
Definition set_name (v : option string) (c : t) : t :=
  Build_t (uuid c) v (language c) (is_active c) (is_blocked c) (is_stopped c)
          (get_urns c) (prefetched_user_groups c) (user_groups c) (get_field c)
          (created_on c) (modified_on c).

Definition set_language (v : option string) (c : t) : t :=
  Build_t (uuid c) (name c) v (is_active c) (is_blocked c) (is_stopped c)
          (get_urns c) (prefetched_user_groups c) (user_groups c) (get_field c)
          (created_on c) (modified_on c).
End Contact.

(** ** Request context *)

(** [self.context]: the ambient values the view hands to every serializer. *)
Module Context.
Record t : Type := {
  org : Org.t;
  user : Z;
  lookup_values : gmap string string;
  contact_fields : list ContactField.t;
  include_geometry : bool
}.
End Context.

(** ** Serialized output *)

(** The [OrderedDict] built by the framework's [to_representation]: every
    name of [Meta.fields] in order, with the value its field produced; a field
    whose value is [None] is stored as [None]. *)
Definition representation : Type := list (string * pyval).

Definition to_representation {T : Type}
    (fields : list (string * (T → pyval))) (obj : T) : representation :=
  map (λ f, (f.1, f.2 obj)) fields.

(** [ret.get(k)] distinguishing a missing key from a stored [None]. *)
Fixpoint field_of (k : string) (ret : representation) : option pyval :=
  match ret with
  | [] => None
  | (k', v) :: rest => if String.eqb k k' then Some v else field_of k rest
  end.

(** [None] for a missing optional string, the string otherwise. *)
Definition py_str (o : option string) : pyval :=
  match o with Some s => PyStr s | None => PyNone end.

(** ** extract_constants *)

Module Constants.
Section extract.
(** Database codes and API codes, hashable values of one type. *)
Context {K : Type} `{Countable K}.

(** One row [(internal_code, label, api_code)] of a constant config. *)
Definition row : Type := K * string * K.

Definition internal (t : row) : K := t.1.1.

Definition api (t : row) : K := t.2.

(** A dict comprehension [{key(t): val(t) for t in config}]: rows are inserted
    left to right, a later row overwrites an earlier one with the same key. *)
Definition comprehension (key val : row → K) (config : list row) : gmap K K :=
  foldl (λ m t, <[key t := val t]> m) ∅ config.

Definition extract_constants (config : list row) (reverse : bool) : gmap K K :=
  if reverse then comprehension api internal config
  else comprehension internal api config.

End extract.
Arguments row K : clear implicits.
End Constants.

(** ** WriteSerializer *)

Module WriteSerializer.
Section run_validation.
(** The validation state threaded through a request: the framework's
    per-field validation ([Serializer.run_validation]) runs in it. *)
Context {St : Type}.
Variable super_run_validation : pyval → St → result (gmap string pyval) * St.

Definition run_validation (data : pyval) (st : St)
  : result (gmap string pyval) * St :=
  if negb (is_dict data) then
    (Raise (Detail [("non_field_errors",
                     ["Request body should be a single JSON object"])]), st)
  else super_run_validation data st.

End run_validation.
End WriteSerializer.

(** ** AdminBoundaryReadSerializer *)

Module AdminBoundary.
(** [simplified_geometry]: a stored geometry with its GeoJSON text; an empty
    geometry collection is falsy. *)
Record geometry : Type := {
  geojson : string;
  non_empty : bool
}.

Inductive t : Type := Build {
  osm_id : string;
  name : string;
  parent : option t;
  level : Z;
  aliases : list string;                 (* [alias.name for alias in aliases.all()] *)
  simplified_geometry : option geometry
}.
End AdminBoundary.

Module AdminBoundaryReadSerializer.
Section serializer.
Variable json_loads : string → pyval.
Variable context : Context.t.

Definition get_parent (obj : AdminBoundary.t) : pyval :=
  match AdminBoundary.parent obj with
  | Some p => PyDict (<["name" := PyStr (AdminBoundary.name p)]>
                     (<["osm_id" := PyStr (AdminBoundary.osm_id p)]> ∅))
  | None => PyNone
  end.

Definition get_aliases (obj : AdminBoundary.t) : pyval :=
  PyList (map PyStr (AdminBoundary.aliases obj)).

Definition get_geometry (obj : AdminBoundary.t) : pyval :=
  if Context.include_geometry context then
    match AdminBoundary.simplified_geometry obj with
    | Some g =>
        if AdminBoundary.non_empty g then json_loads (AdminBoundary.geojson g)
        else PyNone
    | None => PyNone
    end
  else PyNone.

(** [Meta.fields] *)
Definition fields : list (string * (AdminBoundary.t → pyval)) :=
  [ ("osm_id", λ obj, PyStr (AdminBoundary.osm_id obj));
    ("name", λ obj, PyStr (AdminBoundary.name obj));
    ("parent", get_parent);
    ("level", λ obj, PyInt (AdminBoundary.level obj));
    ("aliases", get_aliases);
    ("geometry", get_geometry) ].

Definition data (obj : AdminBoundary.t) : representation :=
  to_representation fields obj.

End serializer.
End AdminBoundaryReadSerializer.

(** ** BroadcastWriteSerializer *)

Module BroadcastWriteSerializer.

Definition validate (context : Context.t) (data : gmap string pyval)
  : result (gmap string pyval) :=
  if Org.is_suspended (Context.org context) then
    Raise (Message ("Sorry, your account is currently suspended. " ++
                    "To enable sending messages, please contact support."))
  else if negb (truthy (dict_get data "urns")
                || truthy (dict_get data "contacts")
                || truthy (dict_get data "groups")) then
    Raise (Message "Must provide either urns, contacts or groups")
  else Return data.

(** [self.validated_data] as the declared fields leave it: [text] is
    required; [urns], [contacts] and [groups] are lists when present;
    [channel] is a channel when present. *)
Record validated_data : Type := {
  text : string;
  urns : option (list string);
  contacts : option (list pyval);
  groups : option (list pyval);
  channel : option pyval
}.

Section save.
(** The domain layer over a database [DB], with its task queue. *)
Context {DB Broadcast : Type}.
(** [Contact.get_or_create(org, user, urns=[urn])] *)
Variable get_or_create : Org.t → Z → list string → DB → pyval * DB.
(** [contact.urn_objects[urn]] *)
Variable urn_object : pyval → string → pyval.
(** [Broadcast.create(org, user, text, recipients=recipients, channel=channel)] *)
Variable create : Org.t → Z → string → list pyval → option pyval → DB → Broadcast * DB.
Variable broadcast_id : Broadcast → Z.
(** [send_broadcast_task.delay(broadcast.id)] *)
Variable delay : Z → DB → DB.

(** The loop [for urn in self.validated_data.get('urns', [])]. *)
Definition resolve_urns (context : Context.t) (urns : list string)
    (recipients : list pyval) (db : DB) : list pyval * DB :=
  foldl (λ '(recipients, db) urn,
           (* create contacts for URNs if necessary *)
           let '(contact, db) := get_or_create (Context.org context)
                                   (Context.user context) [urn] db in
           let contact_urn := urn_object contact urn in
           ((recipients ++ [contact_urn])%list, db))
        (recipients, db) urns.

Definition save (context : Context.t) (data : validated_data) (db : DB)
  : Broadcast * DB :=
  let recipients := (default [] (contacts data) ++ default [] (groups data))%list in
  let '(recipients, db) := resolve_urns context (default [] (urns data)) recipients db in
  (* create the broadcast *)
  let '(broadcast, db) := create (Context.org context) (Context.user context)
                            (text data) recipients (channel data) db in
  (* send in task *)
  (broadcast, delay (broadcast_id broadcast) db).

End save.

End BroadcastWriteSerializer.

(** ** FlowStartWriteSerializer *)

Module FlowStartWriteSerializer.

(** The error is a [django.forms.ValidationError]; the framework reports it
    like a [serializers.ValidationError].  The outer [None] is the
    [TypeError] of [+] on operands that cannot be added. *)
Definition validate (data : gmap string pyval) : option (result (gmap string pyval)) :=
  (* need at least one of urns, groups or contacts *)
  groups_contacts ← py_add (dict_get_or data "groups" (PyList []))
                           (dict_get_or data "contacts" (PyList []));
  args ← py_add groups_contacts (dict_get_or data "urns" (PyList []));
  if negb (truthy args) then
    Some (Raise (Message "Must specify at least one group, contact or URN"))
  else Some (Return data).

(** [self.validated_data] as the declared fields leave it: [flow] is
    required; [contacts], [groups] and [urns] are lists when present. *)
Record validated_data : Type := {
  flow : pyval;
  contacts : option (list pyval);
  groups : option (list pyval);
  urns : option (list string);
  restart_participants : option bool;
  extra : option pyval
}.

Section save.
Context {DB FlowStart : Type}.
(** [Contact.get_or_create(org, user, urns=[urn])] *)
Variable get_or_create : Org.t → Z → list string → DB → pyval * DB.
(** [FlowStart.create(flow, user, restart_participants=..., contacts=...,
    groups=..., extra=...)] *)
Variable create :
  pyval → Z → bool → list pyval → list pyval → option pyval → DB → FlowStart * DB.

(** The loop [for urn in urns]: convert URNs to contacts. *)
Definition resolve_urns (context : Context.t) (urns : list string)
    (contacts : list pyval) (db : DB) : list pyval * DB :=
  foldl (λ '(contacts, db) urn,
           let '(contact, db) := get_or_create (Context.org context)
                                   (Context.user context) [urn] db in
           ((contacts ++ [contact])%list, db))
        (contacts, db) urns.

Definition save (context : Context.t) (data : validated_data) (db : DB)
  : FlowStart * DB :=
  let urns_ := default [] (urns data) in
  let contacts_ := default [] (contacts data) in
  let groups_ := default [] (groups data) in
  let restart_participants_ := default true (restart_participants data) in
  let extra_ := extra data in
  let '(contacts_, db) := resolve_urns context urns_ contacts_ db in
  (* ok, let's go create our flow start, the actual starting will happen in
     our view *)
  create (flow data) (Context.user context) restart_participants_
         contacts_ groups_ extra_ db.

End save.

End FlowStartWriteSerializer.

(** ** FlowRunReadSerializer *)

Module FlowStep.
(** A message sent at a step: [m.id], [m.broadcast_id], [m.text]. *)
Record message : Type := {
  msg_id : Z;
  broadcast_id : option Z;
  msg_text : string
}.

(** A broadcast sent at a step: [b.id], [b.purged]. *)
Record broadcast : Type := {
  id : Z;
  purged : bool
}.

Record t : Type := {
  messages : list message;            (* [step.messages.all()] *)
  broadcasts : list broadcast         (* [step.broadcasts.all()] *)
}.
End FlowStep.

Module FlowRunReadSerializer.
Section serializer.
(** A run, and [b.get_translated_text(run.contact,
    base_language=run.flow.base_language, org=run.org)]. *)
Context {Run : Type}.
Variable get_translated_text : FlowStep.broadcast → Run → string.

Definition py_opt_int (o : option Z) : pyval :=
  match o with Some n => PyInt n | None => PyNone end.

Definition message_entry (m : FlowStep.message) : pyval :=
  PyDict (<["text" := PyStr (FlowStep.msg_text m)]>
          (<["broadcast" := py_opt_int (FlowStep.broadcast_id m)]>
           (<["id" := PyInt (FlowStep.msg_id m)]> ∅))).

Definition broadcast_entry (run : Run) (b : FlowStep.broadcast) : pyval :=
  let text := get_translated_text b run in
  PyDict (<["text" := PyStr text]>
          (<["broadcast" := PyInt (FlowStep.id b)]>
           (<["id" := PyNone]> ∅))).

Definition get_step_messages (run : Run) (step : FlowStep.t) : list pyval :=
  let messages :=
    foldl (λ messages m, (messages ++ [message_entry m])%list)
          [] (FlowStep.messages step) in
  let messages :=
    foldl (λ messages b,
             if FlowStep.purged b then (messages ++ [broadcast_entry run b])%list
             else messages)
          messages (FlowStep.broadcasts step) in
  messages.

End serializer.
End FlowRunReadSerializer.

(** ** CampaignEventWriteSerializer *)

Module Campaign.
(** A saved campaign; model instances compare by primary key. *)
Record t : Type := { pk : Z }.

Definition ne (a b : t) : bool := negb (pk a =? pk b)%Z.
End Campaign.

Module CampaignEvent.
(** The attributes of an event that the serializer reads or assigns. *)
Record t : Type := {
  campaign : Campaign.t;
  flow : pyval;
  event_type : string;
  message : pyval;
  offset : pyval;
  unit : pyval;
  delivery_hour : pyval;
  relative_to : pyval
}.

(** Attribute assignments [self.instance.<attr> = v]. *)
Definition set_flow (v : pyval) (e : t) : t :=
  Build_t (campaign e) v (event_type e) (message e)
          (offset e) (unit e) (delivery_hour e) (relative_to e).

Definition set_event_type (v : string) (e : t) : t :=
  Build_t (campaign e) (flow e) v (message e)
          (offset e) (unit e) (delivery_hour e) (relative_to e).

Definition set_message (v : pyval) (e : t) : t :=
  Build_t (campaign e) (flow e) (event_type e) v
          (offset e) (unit e) (delivery_hour e) (relative_to e).

Definition set_offset (v : pyval) (e : t) : t :=
  Build_t (campaign e) (flow e) (event_type e) (message e)
          v (unit e) (delivery_hour e) (relative_to e).

Definition set_unit (v : pyval) (e : t) : t :=
  Build_t (campaign e) (flow e) (event_type e) (message e)
          (offset e) v (delivery_hour e) (relative_to e).

Definition set_delivery_hour (v : pyval) (e : t) : t :=
  Build_t (campaign e) (flow e) (event_type e) (message e)
          (offset e) (unit e) v (relative_to e).

Definition set_relative_to (v : pyval) (e : t) : t :=
  Build_t (campaign e) (flow e) (event_type e) (message e)
          (offset e) (unit e) (delivery_hour e) v.
End CampaignEvent.

Module CampaignEventWriteSerializer.

(** [value] is the campaign resolved by the field adapter, [None] for a
    Python [None]; [instance] is the bound event on updates. *)
Definition validate_campaign
    (instance : option CampaignEvent.t) (value : option Campaign.t)
  : result (option Campaign.t) :=
  match instance, value with
  | Some inst, Some v =>
      if Campaign.ne (CampaignEvent.campaign inst) v then
        Raise (Message "Cannot change campaign for existing events")
      else Return value
  | _, _ => Return value
  end.

Definition validate (data : gmap string pyval) : result (gmap string pyval) :=
  let message := dict_get data "message" in
  let flow := dict_get data "flow" in
  if (truthy message && truthy flow)
     || (negb (truthy message) && negb (truthy flow)) then
    Raise (Message "Flow UUID or a message text required.")
  else Return data.

Section units.
(** [CampaignEvent.UNIT_CONFIG] *)
Variable UNIT_CONFIG : list (Constants.row string).

Definition UNITS : gmap string string := Constants.extract_constants UNIT_CONFIG true.

(** [choices=UNITS.keys()] of the [unit] field. *)
Definition unit_choices : gset string := dom UNITS.

(** [self.UNITS[value]]; [None] stands for the [KeyError] of a missing key. *)
Definition validate_unit (value : string) : option string := UNITS !! value.

End units.

Section save.
(** The domain layer [save] delegates to.  Flows live in a database [DB];
    the methods called on [self.instance] itself receive and return it. *)
Context {DB : Type}.
Variables TYPE_FLOW TYPE_MESSAGE : string.   (* [CampaignEvent.TYPE_FLOW], [CampaignEvent.TYPE_MESSAGE] *)
Variable create_single_message : Org.t → Z → pyval → DB → pyval * DB.
Variable update_single_message_flow : pyval → pyval → DB → DB.
Variable instance_save : CampaignEvent.t → DB → CampaignEvent.t * DB.
Variable update_flow_name : CampaignEvent.t → DB → CampaignEvent.t * DB.
Variable create_flow_event :
  Org.t → Z → pyval → pyval → pyval → pyval → pyval → pyval →
  DB → CampaignEvent.t * DB.
Variable create_message_event :
  Org.t → Z → pyval → pyval → pyval → pyval → pyval → pyval →
  DB → CampaignEvent.t * DB.

Definition save (context : Context.t) (validated_data : gmap string pyval)
    (instance : option CampaignEvent.t) (db : DB) : CampaignEvent.t * DB :=
  let campaign := dict_get validated_data "campaign" in
  let offset := dict_get validated_data "offset" in
  let unit := dict_get validated_data "unit" in
  let delivery_hour := dict_get validated_data "delivery_hour" in
  let relative_to := dict_get validated_data "relative_to" in
  let message := dict_get validated_data "message" in
  let flow := dict_get validated_data "flow" in
  match instance with
  | Some inst =>
      let '(inst, db) :=
        if truthy flow then
          (* we are being set to a flow *)
          (CampaignEvent.set_message PyNone
             (CampaignEvent.set_event_type TYPE_FLOW
                (CampaignEvent.set_flow flow inst)), db)
        else
          (* we are being set to a message *)
          let inst := CampaignEvent.set_message message inst in
          if negb (String.eqb (CampaignEvent.event_type inst)
                              TYPE_MESSAGE) then
            let '(f, db) := create_single_message (Context.org context)
                              (Context.user context) message db in
            (CampaignEvent.set_event_type TYPE_MESSAGE
               (CampaignEvent.set_flow f inst), db)
          else
            (inst, update_single_message_flow (CampaignEvent.flow inst) message db) in
      (* update our other attributes *)
      let inst := CampaignEvent.set_offset offset inst in
      let inst := CampaignEvent.set_unit unit inst in
      let inst := CampaignEvent.set_delivery_hour delivery_hour inst in
      let inst := CampaignEvent.set_relative_to relative_to inst in
      let '(inst, db) := instance_save inst db in
      update_flow_name inst db
  | None =>
      let '(inst, db) :=
        if truthy flow then
          create_flow_event (Context.org context) (Context.user context)
            campaign relative_to offset unit flow delivery_hour db
        else
          create_message_event (Context.org context) (Context.user context)
            campaign relative_to offset unit message delivery_hour db in
      update_flow_name inst db
  end.

End save.
End CampaignEventWriteSerializer.

(** ** CampaignEventReadSerializer *)

Module CampaignEventReadSerializer.
Section serializer.
Variable UNIT_CONFIG : list (Constants.row string).
Variable TYPE_FLOW : string.
(** [obj.flow.uuid] and [obj.flow.name] of the referenced Flow. *)
Variables flow_uuid flow_name : pyval → string.

Definition UNITS : gmap string string := Constants.extract_constants UNIT_CONFIG false.

Definition get_flow (obj : CampaignEvent.t) : pyval :=
  if String.eqb (CampaignEvent.event_type obj) TYPE_FLOW then
    PyDict (<["name" := PyStr (flow_name (CampaignEvent.flow obj))]>
            (<["uuid" := PyStr (flow_uuid (CampaignEvent.flow obj))]> ∅))
  else PyNone.

(** [self.UNITS.get(obj.unit)]: the table has string keys only. *)
Definition get_unit (obj : CampaignEvent.t) : option string :=
  match CampaignEvent.unit obj with
  | PyStr code => UNITS !! code
  | _ => None
  end.

End serializer.
End CampaignEventReadSerializer.

(** ** ContactReadSerializer *)

Module ContactReadSerializer.
Section serializer.
(** [Contact.serialize_field_value(contact_field, value)] *)
Variable serialize_field_value : ContactField.t → pyval → pyval.
Variable context : Context.t.

Definition get_name (obj : Contact.t) : pyval :=
  if Contact.is_active obj then py_str (Contact.name obj) else PyNone.

Definition get_language (obj : Contact.t) : pyval :=
  if Contact.is_active obj then py_str (Contact.language obj) else PyNone.

Definition get_urns (obj : Contact.t) : pyval :=
  if Org.is_anon (Context.org context) || negb (Contact.is_active obj) then PyList []
  else PyList (map (λ urn, PyStr (ContactURN.urn urn)) (Contact.get_urns obj)).

Definition get_groups (obj : Contact.t) : pyval :=
  if negb (Contact.is_active obj) then PyList []
  else
    let groups := match Contact.prefetched_user_groups obj with
                  | Some gs => gs
                  | None => Contact.user_groups obj
                  end in
    PyList (map (λ g, PyDict (<["name" := PyStr (ContactGroup.name g)]>
                              (<["uuid" := PyStr (ContactGroup.uuid g)]> ∅)))
                groups).

Definition get_contact_fields (obj : Contact.t) : pyval :=
  if negb (Contact.is_active obj) then PyDict ∅
  else
    PyDict (foldl (λ fields contact_field,
                     let value := Contact.get_field obj (ContactField.key contact_field) in
                     <[ContactField.key contact_field :=
                         serialize_field_value contact_field value]> fields)
                  ∅ (Context.contact_fields context)).

Definition get_blocked (obj : Contact.t) : pyval :=
  if Contact.is_active obj then PyBool (Contact.is_blocked obj) else PyNone.

Definition get_stopped (obj : Contact.t) : pyval :=
  if Contact.is_active obj then PyBool (Contact.is_stopped obj) else PyNone.

(** [Meta.fields] *)
Definition fields : list (string * (Contact.t → pyval)) :=
  [ ("uuid", λ obj, PyStr (Contact.uuid obj));
    ("name", get_name);
    ("language", get_language);
    ("urns", get_urns);
    ("groups", get_groups);
    ("fields", get_contact_fields);
    ("blocked", get_blocked);
    ("stopped", get_stopped);
    ("created_on", Contact.created_on);
    ("modified_on", Contact.modified_on) ].

Definition data (obj : Contact.t) : representation :=
  to_representation fields obj.

End serializer.
End ContactReadSerializer.

(** ** ContactWriteSerializer *)

Module ContactWriteSerializer.
Section serializer.
(** [Contact.from_urn(org, urn)]: the contact owning the URN, if any. *)
Variable from_urn : Org.t → string → option Contact.t.
(** [fields.validate_urn(urn)]: the normalized URN, or a validation error. *)
Variable validate_urn : string → result string.
Variable context : Context.t.
Variable instance : option Contact.t.

(** The loop [for urn in value] of [validate_urns]. *)
Fixpoint check_unowned (org : Org.t) (value : list string) : result () :=
  match value with
  | [] => Return ()
  | urn :: rest =>
      if from_urn org urn is Some _ then
        Raise (Message ("URN belongs to another contact: " ++ urn))
      else check_unowned org rest
  end.

Definition validate_urns (value : list string) : result (list string) :=
  let org := Context.org context in
  (* this field isn't allowed if we are looking up by URN in the URL *)
  _ ← (if bool_decide (is_Some (Context.lookup_values context !! "urns__urn"))
       then Raise (Message "Field not allowed when using URN in URL")
       else Return ());
  (* or for updates by anonymous organizations (we do allow creation of
     contacts with URNs) *)
  _ ← (if Org.is_anon org && bool_decide (is_Some instance)
       then Raise (Message "Updating URNs not allowed for anonymous organizations")
       else Return ());
  (* if creating a contact, URNs can't belong to other contacts *)
  _ ← (if negb (bool_decide (is_Some instance))
       then check_unowned org value
       else Return ());
  Return value.

(** The loop [for group in value] of [validate_groups]. *)
Fixpoint check_static (value : list ContactGroup.t) : result () :=
  match value with
  | [] => Return ()
  | group :: rest =>
      if ContactGroup.is_dynamic group then
        Raise (Message ("Can't add contact to dynamic group with UUID: "
                        ++ ContactGroup.uuid group))
      else check_static rest
  end.

Definition validate_groups (value : list ContactGroup.t) : result (list ContactGroup.t) :=
  _ ← check_static value;
  (* if contact is blocked, they can't be added to groups *)
  _ ← (if match instance with
          | Some inst => (Contact.is_blocked inst || Contact.is_stopped inst)
                         && match value with [] => false | _ => true end
          | None => false
          end
       then Raise (Message "Blocked or stopped contacts can't be added to groups")
       else Return ());
  Return value.

(** The loop [for field_key, field_val in value.items()] of [validate_fields]. *)
Fixpoint check_keys (valid_keys : gset string) (items : list (string * pyval))
  : result () :=
  match items with
  | [] => Return ()
  | (field_key, field_val) :: rest =>
      if bool_decide (field_key ∉ valid_keys) then
        Raise (Message ("Invalid contact field key: " ++ field_key))
      else check_keys valid_keys rest
  end.

Definition validate_fields (value : gmap string pyval) : result (gmap string pyval) :=
  let valid_keys : gset string :=
    list_to_set (map ContactField.key (Context.contact_fields context)) in
  _ ← check_keys valid_keys (map_to_list value);
  Return value.

Definition validate (data : gmap string pyval) : result (gmap string pyval) :=
  (* we allow creation of contacts by URN used for lookup; the test
     ['urns__urn' in lookup_values] and the read [lookup_values['urns__urn']]
     are the one lookup below *)
  if negb (truthy (dict_get data "urns")) then
    match Context.lookup_values context !! "urns__urn" with
    | Some url_urn =>
        urn ← validate_urn url_urn;
        Return (<["urns" := PyList [PyStr urn]]> data)
    | None => Return data
    end
  else Return data.

(** [self.validated_data] as the declared fields leave it: [name] and
    [language] are nullable strings, [urns] a list of URNs, [groups] a list of
    groups, [fields] a dictionary; the outer [option] is the presence of the
    key. *)
Record validated_data : Type := {
  name : option (option string);
  language : option (option string);
  urns : option (list string);
  groups : option (list ContactGroup.t);
  fields : option (gmap string pyval)
}.

(** The model methods [save] calls on the contact, in call order. *)
Inductive call : Type :=
| update_urns (user : Z) (urns : list string)
| instance_save (update_fields : list string)
| set_field (user : Z) (key : string) (value : pyval)
| update_static_groups (user : Z) (groups : list ContactGroup.t).

(** [Contact.get_or_create(org, user, name, urns=urns, language=language)] *)
Variable get_or_create :
  Org.t → Z → option string → option (list string) → option string → Contact.t.

Definition save (data : validated_data) : Contact.t * list call :=
  let name_ := mjoin (name data) in
  let language_ := mjoin (language data) in
  let custom_fields := fields data in
  let '(inst, calls) :=
    match instance with
    | Some inst =>
        (* update our name and language *)
        let '(inst, changed) :=
          if bool_decide (is_Some (name data))
             && negb (bool_decide (name_ = Contact.name inst))
          then (Contact.set_name name_ inst, ["name"])
          else (inst, []) in
        let '(inst, changed) :=
          if bool_decide (is_Some (language data))
             && negb (bool_decide (language_ = Contact.language inst))
          then (Contact.set_language language_ inst, (changed ++ ["language"])%list)
          else (inst, changed) in
        let calls :=
          match urns data with
          | Some urns => [update_urns (Context.user context) urns]
          | None => []
          end in
        let calls :=
          match changed with
          | [] => calls
          | _ => (calls ++ [instance_save changed])%list
          end in
        (inst, calls)
    | None =>
        (get_or_create (Context.org context) (Context.user context)
           name_ (urns data) language_, [])
    end in
  (* update our fields *)
  let calls :=
    match custom_fields with
    | Some custom_fields =>
        foldl (λ calls kv, (calls ++ [set_field (Context.user context) kv.1 kv.2])%list)
              calls (map_to_list custom_fields)
    | None => calls
    end in
  (* update our groups *)
  let calls :=
    match groups data with
    | Some groups => (calls ++ [update_static_groups (Context.user context) groups])%list
    | None => calls
    end in
  (inst, calls).

End serializer.
End ContactWriteSerializer.

(** ** MsgReadSerializer *)

Module Msg.
Record t : Type := { status : string }.
End Msg.

Module MsgReadSerializer.
Section serializer.
(** [temba.msgs.models.STATUS_CONFIG], [PENDING] and [QUEUED]. *)
Variable STATUS_CONFIG : list (Constants.row string).
Variables PENDING QUEUED : string.

Definition STATUSES : gmap string string :=
  Constants.extract_constants STATUS_CONFIG false.

(** [STATUSES.get(...)]: [None] when the code is not in the table. *)
Definition get_status (obj : Msg.t) : option string :=
  (* PENDING and QUEUED are same as far as users are concerned *)
  STATUSES !! (if String.eqb (Msg.status obj) PENDING then QUEUED else Msg.status obj).

End serializer.
End MsgReadSerializer.

(** ** Vocabulary of the properties *)

(** What field validation leaves in the data handed to [validate]:
    [message] is a [CharField] (neither null nor blank), [flow] is resolved to
    a Flow instance; both are optional. *)
Definition campaign_event_fields_valid (data : gmap string pyval) : Prop :=
  (∀ v, data !! "message" = Some v → ∃ s, v = PyStr s ∧ s ≠ "")
  ∧ (∀ v, data !! "flow" = Some v → ∃ pk, v = PyObj pk).

(** The recipient field [k] is missing from the payload or is an empty list. *)
Definition no_recipients (data : gmap string pyval) (k : string) : Prop :=
  data !! k = None ∨ data !! k = Some (PyList []).

(** The recipient field [k] holds a non-empty list. *)
Definition some_recipients (data : gmap string pyval) (k : string) : Prop :=
  ∃ x xs, data !! k = Some (PyList (x :: xs)).

(** [vd] is [self.validated_data] read by [ContactWriteSerializer.save] when
    [data] is the dictionary that [validate] returned (the framework keeps
    that dictionary as [validated_data]): the typed reading of its [name],
    [language], [urns] and [fields], with [groups] present in both or in
    neither. *)
Definition validated_as (data : gmap string pyval)
    (vd : ContactWriteSerializer.validated_data) : Prop :=
  data !! "name" = py_str <$> ContactWriteSerializer.name vd
  ∧ data !! "language" = py_str <$> ContactWriteSerializer.language vd
  ∧ data !! "urns"
    = (λ urns, PyList (PyStr <$> urns)) <$> ContactWriteSerializer.urns vd
  ∧ data !! "fields" = PyDict <$> ContactWriteSerializer.fields vd
  ∧ (is_Some (data !! "groups") ↔ is_Some (ContactWriteSerializer.groups vd)).

(** The field [k] is missing from the payload or holds a list. *)
Definition list_or_missing (data : gmap string pyval) (k : string) : Prop :=
  data !! k = None ∨ ∃ xs, data !! k = Some (PyList xs).

(** The serializer is bound to a contact that is blocked or stopped. *)
Definition barred (instance : option Contact.t) : Prop :=
  ∃ inst, instance = Some inst
          ∧ (Contact.is_blocked inst = true ∨ Contact.is_stopped inst = true).

(** The serialized output has no entry for [k]. *)
Definition omits (k : string) (ret : representation) : Prop := field_of k ret = None.

(** ** Sample data *)

Module Sample.
Definition status_config : list (Constants.row string) :=
  [ ("P", "Pending", "pending"); ("Q", "Queued", "queued"); ("S", "Sent", "sent") ].

Definition org : Org.t := {| Org.pk := 1; Org.is_anon := false; Org.is_suspended := false |}.

Definition suspended_org : Org.t :=
  {| Org.pk := 2; Org.is_anon := false; Org.is_suspended := true |}.

Definition anon_org : Org.t :=
  {| Org.pk := 3; Org.is_anon := true; Org.is_suspended := false |}.

Definition context_of (o : Org.t) (lookup : gmap string string) : Context.t :=
  {| Context.org := o; Context.user := 7; Context.lookup_values := lookup;
     Context.contact_fields := []; Context.include_geometry := false |}.

(** [{"message": "hi"}] *)
Definition message_event : gmap string pyval := {[ "message" := PyStr "hi" ]}.

(** [{"message": "hi", "flow": <Flow 5>}] *)
Definition message_and_flow_event : gmap string pyval :=
  <["flow" := PyObj 5]> message_event.

(** [{"text": "hello", "urns": ["tel:+250788123123"]}] *)
Definition broadcast : gmap string pyval :=
  <["urns" := PyList [PyStr "tel:+250788123123"]]> {[ "text" := PyStr "hello" ]}.

(** [{"text": "hello", "contacts": []}] *)
Definition empty_broadcast : gmap string pyval :=
  <["contacts" := PyList []]> {[ "text" := PyStr "hello" ]}.

Definition group : ContactGroup.t :=
  {| ContactGroup.uuid := "5f05311e-8f81-4a67-a5b5-1501b6d6496a";
     ContactGroup.name := "Customers"; ContactGroup.is_dynamic := false |}.

(** A soft-deleted contact whose row still holds its former values. *)
Definition inactive_contact : Contact.t :=
  {| Contact.uuid := "09d23a05-47fe-11e4-bfe9-b8f6b119e9ab";
     Contact.name := Some "Ann"; Contact.language := Some "eng";
     Contact.is_active := false; Contact.is_blocked := true; Contact.is_stopped := true;
     Contact.get_urns := [ {| ContactURN.urn := "tel:+250788123123" |} ];
     Contact.prefetched_user_groups := None;
     Contact.user_groups := [group];
     Contact.get_field := λ _, PyStr "Kigali";
     Contact.created_on := PyStr "2015-11-11T13:05:57.457742Z";
     Contact.modified_on := PyStr "2015-11-11T13:05:57.576056Z" |}.

Definition active_contact : Contact.t :=
  {| Contact.uuid := "09d23a05-47fe-11e4-bfe9-b8f6b119e9ab";
     Contact.name := Some "Ann"; Contact.language := Some "eng";
     Contact.is_active := true; Contact.is_blocked := false; Contact.is_stopped := false;
     Contact.get_urns := [ {| ContactURN.urn := "tel:+250788123123" |} ];
     Contact.prefetched_user_groups := None;
     Contact.user_groups := [group];
     Contact.get_field := λ _, PyStr "Kigali";
     Contact.created_on := PyStr "2015-11-11T13:05:57.457742Z";
     Contact.modified_on := PyStr "2015-11-11T13:05:57.576056Z" |}.

Definition serialize_field_value (f : ContactField.t) (v : pyval) : pyval := v.

Definition rwanda : AdminBoundary.t :=
  AdminBoundary.Build "171496" "Rwanda" None 0 [] None.

Definition kigali : AdminBoundary.t :=
  AdminBoundary.Build "1708283" "Kigali City" (Some rwanda) 1 ["Kigali"; "Kigari"]
    (Some {| AdminBoundary.geojson := "{}"; AdminBoundary.non_empty := true |}).

(** A per-field validation that records the fields it visits. *)
Definition logging_validation (data : pyval) (visited : list string)
  : result (gmap string pyval) * list string :=
  match data with
  | PyDict kvs => (Return kvs, (visited ++ map fst (map_to_list kvs))%list)
  | _ => (Raise (Message "Invalid data"), (visited ++ ["?"])%list)
  end.

(** No URN is owned yet / every URN is owned by [active_contact]. *)
Definition no_owner (o : Org.t) (urn : string) : option Contact.t := None.

Definition owned (o : Org.t) (urn : string) : option Contact.t := Some active_contact.

(** A stand-in for [fields.validate_urn]: rejects the empty URN. *)
Definition validate_urn (urn : string) : result string :=
  if String.eqb urn "" then Raise (Message "Invalid URN") else Return urn.

Definition event : CampaignEvent.t :=
  {| CampaignEvent.campaign := {| Campaign.pk := 10 |};
     CampaignEvent.flow := PyObj 5; CampaignEvent.event_type := "F";
     CampaignEvent.message := PyNone; CampaignEvent.offset := PyInt 1;
     CampaignEvent.unit := PyStr "D"; CampaignEvent.delivery_hour := PyInt (-1);
     CampaignEvent.relative_to := PyObj 3 |}.

Definition dynamic_group : ContactGroup.t :=
  {| ContactGroup.uuid := "1e1ce1e1-9288-4504-869e-022d1003c72a";
     ContactGroup.name := "Adults"; ContactGroup.is_dynamic := true |}.

Definition blocked_contact : Contact.t := Contact.set_name (Some "Bob") inactive_contact.

Definition gender_field : ContactField.t :=
  {| ContactField.key := "gender"; ContactField.label := "Gender";
     ContactField.value_type := "T" |}.

Definition age_field : ContactField.t :=
  {| ContactField.key := "age"; ContactField.label := "Age";
     ContactField.value_type := "N" |}.

Definition fields_context : Context.t :=
  {| Context.org := org; Context.user := 7; Context.lookup_values := ∅;
     Context.contact_fields := [gender_field; age_field];
     Context.include_geometry := false |}.

(** [{"gender": "F"}] and [{"gender": "F", "nickname": "Annie"}] *)
Definition known_fields : gmap string pyval := {[ "gender" := PyStr "F" ]}.

Definition unknown_fields : gmap string pyval :=
  <["nickname" := PyStr "Annie"]> known_fields.

(** [{"flow": <Flow 5>, "groups": [<ContactGroup 4>]}] *)
Definition flow_start : gmap string pyval :=
  <["groups" := PyList [PyObj 4]]> {[ "flow" := PyObj 5 ]}.

(** [{"flow": <Flow 5>, "contacts": [], "urns": []}] *)
Definition empty_flow_start : gmap string pyval :=
  <["urns" := PyList []]> (<["contacts" := PyList []]> {[ "flow" := PyObj 5 ]}).

Definition step : FlowStep.t :=
  {| FlowStep.messages :=
       [ {| FlowStep.msg_id := 31; FlowStep.broadcast_id := None;
            FlowStep.msg_text := "Hi Ann" |} ];
     FlowStep.broadcasts :=
       [ {| FlowStep.id := 8; FlowStep.purged := false |};
         {| FlowStep.id := 9; FlowStep.purged := true |} ] |}.

Definition get_translated_text (b : FlowStep.broadcast) (run : Z) : string := "Hi".

Definition flow_uuid (flow : pyval) : string := "f14e4ff0-724d-43fe-a953-1d16aefd1c00".

Definition flow_name (flow : pyval) : string := "Registration".

(** [{..., "unit": "W", "flow": <Flow 6>}]: the validated payload of a flow event. *)
Definition flow_event_payload : gmap string pyval :=
  <["campaign" := PyObj 10]> (<["offset" := PyInt 2]> (<["unit" := PyStr "W"]>
  (<["delivery_hour" := PyInt 9]> (<["relative_to" := PyObj 3]>
  {[ "flow" := PyObj 6 ]})))).

Definition get_or_create (o : Org.t) (user : Z) (name : option string)
    (urns : option (list string)) (language : option string) : Contact.t :=
  Contact.set_language language (Contact.set_name name active_contact).

(** [{"name": "Ann", "language": "fra", "urns": ["tel:+250788000001"]}] *)
Definition contact_update : ContactWriteSerializer.validated_data :=
  {| ContactWriteSerializer.name := Some (Some "Ann");
     ContactWriteSerializer.language := Some (Some "fra");
     ContactWriteSerializer.urns := Some ["tel:+250788000001"];
     ContactWriteSerializer.groups := None;
     ContactWriteSerializer.fields := Some known_fields |}.

(** [{"name": "Ann", "urns": ["tel:+250788123123"]}] as [validated_data]. *)
Definition contact_by_urn : ContactWriteSerializer.validated_data :=
  {| ContactWriteSerializer.name := Some (Some "Ann");
     ContactWriteSerializer.language := None;
     ContactWriteSerializer.urns := Some ["tel:+250788123123"];
     ContactWriteSerializer.groups := None;
     ContactWriteSerializer.fields := None |}.

(** [CampaignEvent.UNIT_CONFIG] *)
Definition unit_config : list (Constants.row string) :=
  [ ("M", "Minutes", "minutes"); ("H", "Hours", "hours");
    ("D", "Days", "days"); ("W", "Weeks", "weeks") ].

(** The lookup of [/contacts.json?urn=tel:+250788123123]. *)
Definition urn_lookup : gmap string string := {[ "urns__urn" := "tel:+250788123123" ]}.

(** [{"name": "Ann"}] *)
Definition contact_payload : gmap string pyval := {[ "name" := PyStr "Ann" ]}.

(** A domain layer over a database that counts the flows it created; the
    methods called on the event leave its attributes alone. *)
Definition create_single_message (o : Org.t) (user : Z) (message : pyval) (db : Z)
  : pyval * Z := (PyObj (db + 1), (db + 1)%Z).

Definition update_single_message_flow (flow message : pyval) (db : Z) : Z := db.

Definition instance_save (e : CampaignEvent.t) (db : Z) : CampaignEvent.t * Z := (e, db).

Definition update_flow_name (e : CampaignEvent.t) (db : Z) : CampaignEvent.t * Z := (e, db).

Definition create_event (o : Org.t) (user : Z)
    (campaign relative_to offset unit target delivery_hour : pyval) (db : Z)
  : CampaignEvent.t * Z := (event, db).

(** [{"campaign": <Campaign 11>, "offset": 2, "unit": "W", "delivery_hour": 9,
      "relative_to": <ContactField 3>, "message": "hi"}] *)
Definition event_payload : gmap string pyval :=
  <["campaign" := PyObj 11]> (<["offset" := PyInt 2]> (<["unit" := PyStr "W"]>
  (<["delivery_hour" := PyInt 9]> (<["relative_to" := PyObj 3]> message_event)))).

(** A stand-in for [json.loads]. *)
Definition json_loads (text : string) : pyval := PyStr text.
End Sample.

(** * Properties *)

(** ** The serializers on sample data *)

Example statuses_forward :
  Constants.extract_constants Sample.status_config false !! "Q" = Some "queued".
Proof. vm_compute. reflexivity. Qed.

Example statuses_reverse :
  Constants.extract_constants Sample.status_config true !! "queued" = Some "Q".
Proof. vm_compute. reflexivity. Qed.

(** A later row wins when a key repeats. *)
Example comprehension_last_wins :
  Constants.extract_constants [("P", "Pending", "pending"); ("P", "Queued", "queued")] false
    !! "P" = Some "queued".
Proof. vm_compute. reflexivity. Qed.

Example pending_reported_as_queued :
  MsgReadSerializer.get_status Sample.status_config "P" "Q" {| Msg.status := "P" |}
  = Some "queued".
Proof. vm_compute. reflexivity. Qed.

Example unknown_status_reported_as_none :
  MsgReadSerializer.get_status Sample.status_config "P" "Q" {| Msg.status := "X" |} = None.
Proof. vm_compute. reflexivity. Qed.

Example message_event_accepted :
  CampaignEventWriteSerializer.validate Sample.message_event = Return Sample.message_event.
Proof. vm_compute. reflexivity. Qed.

Example empty_event_rejected :
  CampaignEventWriteSerializer.validate ∅
  = Raise (Message "Flow UUID or a message text required.").
Proof. vm_compute. reflexivity. Qed.

Example active_contact_name :
  field_of "name"
    (ContactReadSerializer.data Sample.serialize_field_value
       (Sample.context_of Sample.org ∅) Sample.active_contact)
  = Some (PyStr "Ann").
Proof. reflexivity. Qed.

Example body_array_rejected :
  WriteSerializer.run_validation Sample.logging_validation (PyList []) []
  = (Raise (Detail [("non_field_errors",
                     ["Request body should be a single JSON object"])]), []).
Proof. reflexivity. Qed.

Example owned_urn_rejected :
  ContactWriteSerializer.validate_urns Sample.owned (Sample.context_of Sample.org ∅)
    None ["tel:+250788000001"]
  = Raise (Message "URN belongs to another contact: tel:+250788000001").
Proof. vm_compute. reflexivity. Qed.

(** ** extract_constants *)

Section constants.
Context {K : Type} `{Countable K}.
Implicit Types (config : list (Constants.row K)) (t : Constants.row K).

(** A key that no row produces is left as the accumulator had it. *)
Lemma comprehension_fresh (key val : Constants.row K → K) config k (m : gmap K K) :
  k ∉ key <$> config →
  foldl (λ m t, <[key t := val t]> m) m config !! k = m !! k.
Proof.
  revert m. induction config as [|t config IH]; intros m Hk; [done|].
  rewrite fmap_cons, not_elem_of_cons in Hk. destruct Hk as [Hne Hk].
  cbn [foldl]. rewrite IH by done. by rewrite lookup_insert_ne.
Qed.

(** With pairwise distinct keys, every row is found under its key. *)
Lemma comprehension_lookup (key val : Constants.row K → K) config t (m : gmap K K) :
  NoDup (key <$> config) → t ∈ config →
  foldl (λ m t, <[key t := val t]> m) m config !! key t = Some (val t).
Proof.
  revert m. induction config as [|t' config IH]; intros m Hnd Ht.
  - by apply elem_of_nil in Ht.
  - rewrite fmap_cons in Hnd. apply NoDup_cons in Hnd as [Hfresh Hnd].
    cbn [foldl]. apply elem_of_cons in Ht as [->|Ht].
    + rewrite comprehension_fresh by done. apply lookup_insert_eq.
    + by apply IH.
Qed.

(** C6: on a config whose internal codes and whose API codes are pairwise
    distinct, [extract_constants(config)] sends every internal code [c] of the
    config to the one API code the config gives it, and
    [extract_constants(config, reverse=True)] sends that API code back to
    [c]. *)
Theorem extract_constants_round_trip config :
  NoDup (Constants.internal <$> config) →
  NoDup (Constants.api <$> config) →
  ∀ c, c ∈ Constants.internal <$> config →
    ∃ a, Constants.extract_constants config false !! c = Some a
         ∧ (∀ t, t ∈ config → Constants.internal t = c → Constants.api t = a)
         ∧ Constants.extract_constants config true !! a = Some c.
Proof.
  intros Hint Hapi c Hc.
  apply list_elem_of_fmap in Hc as (t & -> & Ht).
  exists (Constants.api t). unfold Constants.extract_constants, Constants.comprehension.
  split_and!.
  - by apply comprehension_lookup.
  - intros t' Ht' Heq.
    pose proof (comprehension_lookup Constants.internal Constants.api config t ∅ Hint Ht) as E1.
    pose proof (comprehension_lookup Constants.internal Constants.api config t' ∅ Hint Ht') as E2.
    rewrite Heq in E2. congruence.
  - by apply (comprehension_lookup Constants.api Constants.internal).
Qed.

End constants.

Lemma extract_constants_round_trip_witness :
  ∃ a, Constants.extract_constants Sample.status_config false !! "Q" = Some a
       ∧ (∀ t, t ∈ Sample.status_config → Constants.internal t = "Q" → Constants.api t = a)
       ∧ Constants.extract_constants Sample.status_config true !! a = Some "Q".
Proof.
  apply (extract_constants_round_trip Sample.status_config).
  - apply (bool_decide_unpack _). vm_compute. reflexivity.
  - apply (bool_decide_unpack _). vm_compute. reflexivity.
  - apply (bool_decide_unpack _). vm_compute. reflexivity.
Defined.

(** ** CampaignEventWriteSerializer.validate *)

(** On field-validated data a field is set exactly when its key is present. *)
Lemma campaign_event_set_iff_present data :
  campaign_event_fields_valid data →
  (truthy (dict_get data "message") ↔ is_Some (data !! "message"))
  ∧ (truthy (dict_get data "flow") ↔ is_Some (data !! "flow")).
Proof.
  intros [Hm Hf]. unfold dict_get. split.
  - destruct (data !! "message") as [v|] eqn:E; cbn.
    + destruct (Hm v eq_refl) as (s & -> & Hs). cbn.
      split; [eauto|intros _]. destruct (String.eqb_spec s ""); [done|exact I].
    + split; [done|]. by intros [? [=]].
  - destruct (data !! "flow") as [v|] eqn:E; cbn.
    + destruct (Hf v eq_refl) as (pk & ->). cbn. split; eauto.
    + split; [done|]. by intros [? [=]].
Qed.

(** C1: [CampaignEventWriteSerializer.validate] raises exactly when [message]
    and [flow] are both set or both unset, and returns the data unchanged when
    exactly one of them is set. *)
Theorem campaign_event_validate_exactly_one (data : gmap string pyval) :
  let message := truthy (dict_get data "message") in
  let flow := truthy (dict_get data "flow") in
  (raises (CampaignEventWriteSerializer.validate data)
     ↔ (message ∧ flow) ∨ (¬ message ∧ ¬ flow))
  ∧ (xorb message flow → CampaignEventWriteSerializer.validate data = Return data).
Proof.
  unfold CampaignEventWriteSerializer.validate, raises. cbn zeta.
  destruct (truthy (dict_get data "message")), (truthy (dict_get data "flow")); cbn.
  - split; [|done]. split; [intros _; left; done | eauto].
  - split; [|done]. split; [intros [e [=]] | intros [[_ []] | [[] _]]; done].
  - split; [|done]. split; [intros [e [=]] | intros [[[] _] | [_ []]]; done].
  - split; [|done]. split; [intros _; right; split; intros [] | eauto].
Qed.

(** On field-validated data, "set" is "present in the payload". *)
Corollary campaign_event_validate_by_presence (data : gmap string pyval) :
  campaign_event_fields_valid data →
  raises (CampaignEventWriteSerializer.validate data)
  ↔ (is_Some (data !! "message") ∧ is_Some (data !! "flow"))
    ∨ (data !! "message" = None ∧ data !! "flow" = None).
Proof.
  intros Hvalid. destruct (campaign_event_set_iff_present data Hvalid) as [Hm Hf].
  unfold CampaignEventWriteSerializer.validate, raises. cbn zeta.
  rewrite <- Hm, <- Hf, !eq_None_not_Some, <- Hm, <- Hf.
  destruct (truthy (dict_get data "message")), (truthy (dict_get data "flow")); cbn.
  - split; [intros _; left; done | eauto].
  - split; [intros [e [=]] | intros [[_ []] | [[] _]]; done].
  - split; [intros [e [=]] | intros [[[] _] | [_ []]]; done].
  - split; [intros _; right; split; intros [] | eauto].
Qed.

Lemma campaign_event_validate_exactly_one_witness :
  raises (CampaignEventWriteSerializer.validate Sample.message_and_flow_event)
  ∧ CampaignEventWriteSerializer.validate Sample.message_event
    = Return Sample.message_event.
Proof.
  split.
  - apply (proj1 (campaign_event_validate_exactly_one Sample.message_and_flow_event)).
    left. vm_compute. split; exact I.
  - apply (proj2 (campaign_event_validate_exactly_one Sample.message_event)).
    vm_compute. exact I.
Defined.

(** ** BroadcastWriteSerializer.validate *)

Lemma no_recipients_falsy data k :
  no_recipients data k → truthy (dict_get data k) = false.
Proof. unfold dict_get. by intros [-> | ->]. Qed.

Lemma some_recipients_truthy data k :
  some_recipients data k → truthy (dict_get data k) = true.
Proof. unfold dict_get. by intros (x & xs & ->). Qed.

(** C3: [BroadcastWriteSerializer.validate] raises when none of [urns],
    [contacts], [groups] is provided or all are empty; raises when the org is
    suspended, whatever the payload; and returns the data when the org is not
    suspended and some recipient field is non-empty. *)
Theorem broadcast_validate (context : Context.t) (data : gmap string pyval) :
  (no_recipients data "urns" ∧ no_recipients data "contacts"
     ∧ no_recipients data "groups" →
   raises (BroadcastWriteSerializer.validate context data))
  ∧ (Org.is_suspended (Context.org context) = true →
     raises (BroadcastWriteSerializer.validate context data))
  ∧ (Org.is_suspended (Context.org context) = false →
     some_recipients data "urns" ∨ some_recipients data "contacts"
       ∨ some_recipients data "groups" →
     BroadcastWriteSerializer.validate context data = Return data).
Proof.
  unfold BroadcastWriteSerializer.validate, raises. split_and!.
  - intros (Hu & Hc & Hg).
    rewrite (no_recipients_falsy _ _ Hu), (no_recipients_falsy _ _ Hc),
      (no_recipients_falsy _ _ Hg).
    destruct (Org.is_suspended _); cbn; eauto.
  - intros ->. eauto.
  - intros -> [Hr | [Hr | Hr]]; rewrite (some_recipients_truthy _ _ Hr); cbn;
      rewrite ?orb_true_r; done.
Qed.

Lemma broadcast_validate_witness :
  raises (BroadcastWriteSerializer.validate
            (Sample.context_of Sample.org ∅) Sample.empty_broadcast)
  ∧ raises (BroadcastWriteSerializer.validate
              (Sample.context_of Sample.suspended_org ∅) Sample.broadcast)
  ∧ BroadcastWriteSerializer.validate
      (Sample.context_of Sample.org ∅) Sample.broadcast
    = Return Sample.broadcast.
Proof.
  split_and!.
  - apply (proj1 (broadcast_validate (Sample.context_of Sample.org ∅)
                     Sample.empty_broadcast)).
    split_and!; [left | right | left]; vm_compute; reflexivity.
  - apply (proj1 (proj2 (broadcast_validate (Sample.context_of Sample.suspended_org ∅)
                            Sample.broadcast))).
    reflexivity.
  - apply (proj2 (proj2 (broadcast_validate (Sample.context_of Sample.org ∅)
                            Sample.broadcast))).
    + reflexivity.
    + left. eexists _, _. vm_compute. reflexivity.
Defined.

(** ** ContactReadSerializer *)

(** C2: for a contact with [is_active] false the serializer reports
    [name=None], [language=None], [urns=[]], [groups=[]], [fields={}],
    [blocked=None] and [stopped=None], whatever the contact row stores. *)
Theorem inactive_contact_projection
    (serialize_field_value : ContactField.t → pyval → pyval)
    (context : Context.t) (obj : Contact.t) :
  Contact.is_active obj = false →
  let ret := ContactReadSerializer.data serialize_field_value context obj in
  field_of "name" ret = Some PyNone
  ∧ field_of "language" ret = Some PyNone
  ∧ field_of "urns" ret = Some (PyList [])
  ∧ field_of "groups" ret = Some (PyList [])
  ∧ field_of "fields" ret = Some (PyDict ∅)
  ∧ field_of "blocked" ret = Some PyNone
  ∧ field_of "stopped" ret = Some PyNone.
Proof.
  intros Hinactive. cbn.
  unfold ContactReadSerializer.get_name, ContactReadSerializer.get_language,
    ContactReadSerializer.get_urns, ContactReadSerializer.get_groups,
    ContactReadSerializer.get_contact_fields, ContactReadSerializer.get_blocked,
    ContactReadSerializer.get_stopped.
  rewrite Hinactive. cbn. rewrite orb_true_r. done.
Qed.

Lemma inactive_contact_projection_witness :
  let ret := ContactReadSerializer.data Sample.serialize_field_value
               (Sample.context_of Sample.org ∅) Sample.inactive_contact in
  field_of "name" ret = Some PyNone
  ∧ field_of "language" ret = Some PyNone
  ∧ field_of "urns" ret = Some (PyList [])
  ∧ field_of "groups" ret = Some (PyList [])
  ∧ field_of "fields" ret = Some (PyDict ∅)
  ∧ field_of "blocked" ret = Some PyNone
  ∧ field_of "stopped" ret = Some PyNone.
Proof.
  apply (inactive_contact_projection Sample.serialize_field_value
           (Sample.context_of Sample.org ∅) Sample.inactive_contact).
  reflexivity.
Defined.

(** ** AdminBoundaryReadSerializer *)

(** With [include_geometry] false the output still has a [geometry] entry. *)
Lemma admin_boundary_geometry_not_omitted :
  ¬ (Context.include_geometry (Sample.context_of Sample.org ∅) = false →
     omits "geometry"
       (AdminBoundaryReadSerializer.data Sample.json_loads
          (Sample.context_of Sample.org ∅) Sample.kigali)).
Proof. intros Homits. specialize (Homits eq_refl). discriminate Homits. Qed.

(** C8 (amended): when [include_geometry] is false or the boundary has no
    simplified geometry, the output holds [geometry] with the value [None];
    [parent] is the dictionary of the parent's [osm_id] and [name] when a
    parent exists and [None] otherwise. *)
Theorem admin_boundary_geometry_and_parent
    (json_loads : string → pyval) (context : Context.t) (obj : AdminBoundary.t) :
  let ret := AdminBoundaryReadSerializer.data json_loads context obj in
  (Context.include_geometry context = false
     ∨ AdminBoundary.simplified_geometry obj = None →
   field_of "geometry" ret = Some PyNone)
  ∧ (∀ p, AdminBoundary.parent obj = Some p →
       field_of "parent" ret
       = Some (PyDict (<["name" := PyStr (AdminBoundary.name p)]>
                       (<["osm_id" := PyStr (AdminBoundary.osm_id p)]> ∅))))
  ∧ (AdminBoundary.parent obj = None → field_of "parent" ret = Some PyNone).
Proof.
  cbn. unfold AdminBoundaryReadSerializer.get_geometry,
    AdminBoundaryReadSerializer.get_parent.
  split_and!.
  - intros [-> | ->]; [done|]. by destruct (Context.include_geometry context).
  - by intros p ->.
  - by intros ->.
Qed.

Lemma admin_boundary_geometry_and_parent_witness :
  let ret := AdminBoundaryReadSerializer.data Sample.json_loads
               (Sample.context_of Sample.org ∅) Sample.kigali in
  field_of "geometry" ret = Some PyNone
  ∧ field_of "parent" ret
    = Some (PyDict (<["name" := PyStr "Rwanda"]> (<["osm_id" := PyStr "171496"]> ∅)))
  ∧ field_of "parent"
      (AdminBoundaryReadSerializer.data Sample.json_loads
         (Sample.context_of Sample.org ∅) Sample.rwanda)
    = Some PyNone.
Proof.
  split_and!.
  - apply (proj1 (admin_boundary_geometry_and_parent Sample.json_loads
                    (Sample.context_of Sample.org ∅) Sample.kigali)).
    left. reflexivity.
  - apply (proj1 (proj2 (admin_boundary_geometry_and_parent Sample.json_loads
                           (Sample.context_of Sample.org ∅) Sample.kigali))
             Sample.rwanda).
    reflexivity.
  - apply (proj2 (proj2 (admin_boundary_geometry_and_parent Sample.json_loads
                           (Sample.context_of Sample.org ∅) Sample.rwanda))).
    reflexivity.
Defined.

(** ** WriteSerializer.run_validation *)

(** C4: for an input that is not a dict, [run_validation] raises a validation
    error whose detail is keyed under [non_field_errors], without running the
    per-field validation (the state is returned as it was received, whatever
    that validation would do); a dict input is handed to the per-field
    validation. *)
Theorem run_validation_single_object {St : Type}
    (super_run_validation : pyval → St → result (gmap string pyval) * St)
    (data : pyval) (st : St) :
  (is_dict data = false →
   WriteSerializer.run_validation super_run_validation data st
   = (Raise (Detail [("non_field_errors",
                      ["Request body should be a single JSON object"])]), st))
  ∧ (is_dict data = true →
     WriteSerializer.run_validation super_run_validation data st
     = super_run_validation data st).
Proof.
  unfold WriteSerializer.run_validation. split; intros ->; reflexivity.
Qed.

Lemma run_validation_single_object_witness :
  WriteSerializer.run_validation Sample.logging_validation
    (PyList [PyDict Sample.message_event]) []
  = (Raise (Detail [("non_field_errors",
                     ["Request body should be a single JSON object"])]), [])
  ∧ WriteSerializer.run_validation Sample.logging_validation
      (PyDict Sample.message_event) []
    = Sample.logging_validation (PyDict Sample.message_event) [].
Proof.
  split.
  - apply (proj1 (run_validation_single_object Sample.logging_validation
                    (PyList [PyDict Sample.message_event]) [])).
    reflexivity.
  - apply (proj2 (run_validation_single_object Sample.logging_validation
                    (PyDict Sample.message_event) [])).
    reflexivity.
Defined.

(** ** ContactWriteSerializer *)

Section contact_write.
Variable from_urn : Org.t → string → option Contact.t.
Variable context : Context.t.

Lemma check_unowned_raises org (value : list string) :
  (∃ urn, urn ∈ value ∧ is_Some (from_urn org urn)) →
  raises (ContactWriteSerializer.check_unowned from_urn org value).
Proof.
  intros (urn & Hin & Howned). induction value as [|u value IH].
  - by apply elem_of_nil in Hin.
  - cbn. destruct (from_urn org u) eqn:E; [by eexists|].
    apply IH. apply elem_of_cons in Hin as [->|]; [|done].
    rewrite E in Howned. by destruct Howned.
Qed.

Lemma check_unowned_returns org (value : list string) :
  (∀ urn, urn ∈ value → from_urn org urn = None) →
  ContactWriteSerializer.check_unowned from_urn org value = Return ().
Proof.
  induction value as [|u value IH]; intros Hfree; [done|].
  cbn. rewrite (Hfree u) by set_solver.
  apply IH. intros urn Hin. apply Hfree. set_solver.
Qed.

(** C5: [validate_urns] raises when the lookup was by URN; otherwise raises
    for an anonymous org when bound to an existing instance; on creation (also
    for an anonymous org) it raises when some supplied URN belongs to a
    contact and returns the value when none does. *)
Theorem validate_urns_policy (instance : option Contact.t) (value : list string) :
  let lookup := Context.lookup_values context !! "urns__urn" in
  let org := Context.org context in
  let r := ContactWriteSerializer.validate_urns from_urn context instance value in
  (is_Some lookup → r = Raise (Message "Field not allowed when using URN in URL"))
  ∧ (lookup = None → Org.is_anon org = true → is_Some instance →
     r = Raise (Message "Updating URNs not allowed for anonymous organizations"))
  ∧ (lookup = None → instance = None →
     (∃ urn, urn ∈ value ∧ is_Some (from_urn org urn)) → raises r)
  ∧ (lookup = None → instance = None →
     (∀ urn, urn ∈ value → from_urn org urn = None) → r = Return value).
Proof.
  cbn zeta. unfold ContactWriteSerializer.validate_urns. split_and!.
  - intros Hl. by rewrite (bool_decide_eq_true_2 _ Hl).
  - intros -> -> [c ->]. reflexivity.
  - intros -> -> Howned. rewrite andb_false_r. cbn.
    destruct (check_unowned_raises (Context.org context) value Howned) as [e ->].
    by eexists.
  - intros -> -> Hfree. rewrite andb_false_r. cbn.
    by rewrite check_unowned_returns.
Qed.

End contact_write.

Lemma validate_urns_policy_witness :
  ContactWriteSerializer.validate_urns Sample.no_owner
    (Sample.context_of Sample.org Sample.urn_lookup) None ["tel:+250788000001"]
  = Raise (Message "Field not allowed when using URN in URL")
  ∧ ContactWriteSerializer.validate_urns Sample.no_owner
      (Sample.context_of Sample.anon_org ∅) (Some Sample.active_contact)
      ["tel:+250788000001"]
    = Raise (Message "Updating URNs not allowed for anonymous organizations")
  ∧ raises (ContactWriteSerializer.validate_urns Sample.owned
              (Sample.context_of Sample.org ∅) None ["tel:+250788000001"])
  ∧ ContactWriteSerializer.validate_urns Sample.no_owner
      (Sample.context_of Sample.anon_org ∅) None ["tel:+250788000001"]
    = Return ["tel:+250788000001"].
Proof.
  split_and!.
  - apply (proj1 (validate_urns_policy Sample.no_owner
                    (Sample.context_of Sample.org Sample.urn_lookup) None
                    ["tel:+250788000001"])).
    vm_compute. eexists. reflexivity.
  - apply (proj1 (proj2 (validate_urns_policy Sample.no_owner
                           (Sample.context_of Sample.anon_org ∅)
                           (Some Sample.active_contact) ["tel:+250788000001"]))).
    + reflexivity.
    + reflexivity.
    + eexists. reflexivity.
  - apply (proj1 (proj2 (proj2 (validate_urns_policy Sample.owned
                                  (Sample.context_of Sample.org ∅) None
                                  ["tel:+250788000001"])))).
    + reflexivity.
    + reflexivity.
    + exists "tel:+250788000001". split; [apply list_elem_of_here | eexists; reflexivity].
  - apply (proj2 (proj2 (proj2 (validate_urns_policy Sample.no_owner
                                  (Sample.context_of Sample.anon_org ∅) None
                                  ["tel:+250788000001"])))).
    + reflexivity.
    + reflexivity.
    + intros urn _. reflexivity.
Defined.

(** A call already made stays in the list while the [set_field] calls are
    appended. *)
Lemma appended_calls_keep {A B : Type} (f : B → A) (items : list B) (calls : list A) x :
  x ∈ calls → x ∈ foldl (λ calls b, (calls ++ [f b])%list) calls items.
Proof.
  revert calls. induction items as [|b items IH]; intros calls Hin; [done|].
  cbn. apply IH. set_solver.
Qed.

(** With [urns] in the validated data, an update calls [update_urns] with
    them. *)
Lemma save_calls_update_urns (context : Context.t) (inst : Contact.t)
    (get_or_create :
       Org.t → Z → option string → option (list string) → option string → Contact.t)
    (vd : ContactWriteSerializer.validated_data) (urns : list string) :
  ContactWriteSerializer.urns vd = Some urns →
  ContactWriteSerializer.update_urns (Context.user context) urns
  ∈ (ContactWriteSerializer.save context (Some inst) get_or_create vd).2.
Proof.
  intros Hurns. unfold ContactWriteSerializer.save. rewrite Hurns.
  destruct (bool_decide (is_Some (ContactWriteSerializer.name vd)) && _);
    destruct (bool_decide (is_Some (ContactWriteSerializer.language vd)) && _);
    destruct (ContactWriteSerializer.fields vd) as [fs|];
    destruct (ContactWriteSerializer.groups vd) as [gs|]; cbn;
    rewrite ?elem_of_app; repeat left;
    try apply appended_calls_keep; set_solver.
Qed.

(** C10: when the lookup was by URN and the payload has no [urns] field,
    [validate] passes the URN of the URL through [fields.validate_urn] and
    returns the data with [urns] set to the one-element list of the validated
    URN; a URN that fails validation makes [validate] raise that error.  When
    [save] then runs on the data [validate] returned, the contact it creates
    is the one [Contact.get_or_create] returns for that URN (with the name and
    language of the payload), and a contact it updates receives the URN
    through [update_urns]. *)
Theorem contact_validate_injects_url_urn
    (validate_urn : string → result string) (context : Context.t)
    (data : gmap string pyval) (url_urn : string) :
  Context.lookup_values context !! "urns__urn" = Some url_urn →
  data !! "urns" = None →
  (∀ urn, validate_urn url_urn = Return urn →
     ContactWriteSerializer.validate validate_urn context data
     = Return (<["urns" := PyList [PyStr urn]]> data))
  ∧ (∀ e, validate_urn url_urn = Raise e →
       ContactWriteSerializer.validate validate_urn context data = Raise e)
  ∧ (∀ urn data' vd get_or_create,
       validate_urn url_urn = Return urn →
       ContactWriteSerializer.validate validate_urn context data = Return data' →
       validated_as data' vd →
       ContactWriteSerializer.urns vd = Some [urn]
       ∧ data !! "name" = py_str <$> ContactWriteSerializer.name vd
       ∧ data !! "language" = py_str <$> ContactWriteSerializer.language vd
       ∧ (ContactWriteSerializer.save context None get_or_create vd).1
         = get_or_create (Context.org context) (Context.user context)
             (mjoin (ContactWriteSerializer.name vd)) (Some [urn])
             (mjoin (ContactWriteSerializer.language vd))
       ∧ ∀ inst,
           ContactWriteSerializer.update_urns (Context.user context) [urn]
           ∈ (ContactWriteSerializer.save context (Some inst) get_or_create vd).2).
Proof.
  intros Hlookup Habsent.
  assert (∀ urn, validate_urn url_urn = Return urn →
            ContactWriteSerializer.validate validate_urn context data
            = Return (<["urns" := PyList [PyStr urn]]> data)) as Hinject.
  { intros urn Hurn. unfold ContactWriteSerializer.validate, dict_get.
    by rewrite Habsent, Hlookup, Hurn. }
  split_and!.
  - exact Hinject.
  - intros e He. unfold ContactWriteSerializer.validate, dict_get.
    by rewrite Habsent, Hlookup, He.
  - intros urn data' vd get_or_create Hurn Hvalidate (Hname & Hlang & Hurns & _).
    rewrite (Hinject urn Hurn) in Hvalidate. injection Hvalidate as <-.
    rewrite lookup_insert_eq in Hurns.
    rewrite lookup_insert_ne in Hname by done.
    rewrite lookup_insert_ne in Hlang by done.
    assert (ContactWriteSerializer.urns vd = Some [urn]) as Hvd.
    { destruct (ContactWriteSerializer.urns vd) as [[|u [|u' us]]|];
        cbn in Hurns; by simplify_eq. }
    split_and!; [done | done | done | |].
    + unfold ContactWriteSerializer.save. rewrite Hvd.
      by destruct (ContactWriteSerializer.fields vd), (ContactWriteSerializer.groups vd).
    + intros inst. by apply save_calls_update_urns.
Qed.

Lemma contact_validate_injects_url_urn_witness :
  ContactWriteSerializer.validate Sample.validate_urn
    (Sample.context_of Sample.org Sample.urn_lookup) Sample.contact_payload
  = Return (<["urns" := PyList [PyStr "tel:+250788123123"]]> Sample.contact_payload)
  ∧ (ContactWriteSerializer.save (Sample.context_of Sample.org Sample.urn_lookup) None
       Sample.get_or_create Sample.contact_by_urn).1
    = Sample.get_or_create Sample.org 7 (Some "Ann") (Some ["tel:+250788123123"]) None.
Proof.
  split.
  - apply (proj1 (contact_validate_injects_url_urn Sample.validate_urn
                    (Sample.context_of Sample.org Sample.urn_lookup)
                    Sample.contact_payload "tel:+250788123123"
                    ltac:(vm_compute; reflexivity) ltac:(vm_compute; reflexivity))).
    reflexivity.
  - apply (proj2 (proj2 (contact_validate_injects_url_urn Sample.validate_urn
                           (Sample.context_of Sample.org Sample.urn_lookup)
                           Sample.contact_payload "tel:+250788123123"
                           ltac:(vm_compute; reflexivity) ltac:(vm_compute; reflexivity)))
             "tel:+250788123123"
             (<["urns" := PyList [PyStr "tel:+250788123123"]]> Sample.contact_payload)
             Sample.contact_by_urn Sample.get_or_create).
    + reflexivity.
    + vm_compute. reflexivity.
    + split_and!; [vm_compute; reflexivity.. | split; intros [? [=]]].
Defined.

(** ** MsgReadSerializer.get_status *)

(** C7: a message whose status is [PENDING] is reported through the [QUEUED]
    entry of the status table, hence with the same status string as a
    [QUEUED] message; every other status is looked up in the table as it
    is. *)
Theorem msg_status_pending_as_queued
    (STATUS_CONFIG : list (Constants.row string)) (PENDING QUEUED : string) :
  let get_status := MsgReadSerializer.get_status STATUS_CONFIG PENDING QUEUED in
  let STATUSES := MsgReadSerializer.STATUSES STATUS_CONFIG in
  (∀ pending, Msg.status pending = PENDING →
     get_status pending = STATUSES !! QUEUED)
  ∧ (∀ pending queued,
       Msg.status pending = PENDING → Msg.status queued = QUEUED →
       get_status pending = get_status queued)
  ∧ (∀ msg, Msg.status msg ≠ PENDING →
       get_status msg = STATUSES !! Msg.status msg).
Proof.
  cbn zeta. unfold MsgReadSerializer.get_status. split_and!.
  - intros m ->. by rewrite String.eqb_refl.
  - intros m q -> ->. rewrite String.eqb_refl. by destruct (String.eqb QUEUED PENDING).
  - intros m Hne. by destruct (String.eqb_spec (Msg.status m) PENDING).
Qed.

Lemma msg_status_pending_as_queued_witness :
  MsgReadSerializer.get_status Sample.status_config "P" "Q" {| Msg.status := "P" |}
  = MsgReadSerializer.get_status Sample.status_config "P" "Q" {| Msg.status := "Q" |}
  ∧ MsgReadSerializer.get_status Sample.status_config "P" "Q" {| Msg.status := "S" |}
    = MsgReadSerializer.STATUSES Sample.status_config !! "S".
Proof.
  split.
  - apply (proj1 (proj2 (msg_status_pending_as_queued Sample.status_config "P" "Q")));
      reflexivity.
  - apply (proj2 (proj2 (msg_status_pending_as_queued Sample.status_config "P" "Q"))
             {| Msg.status := "S" |}).
    vm_compute. discriminate.
Defined.

(** ** CampaignEventWriteSerializer: the campaign of an existing event *)

Lemma campaign_ne_true (a b : Campaign.t) : a ≠ b → Campaign.ne a b = true.
Proof.
  destruct a as [x], b as [y]. unfold Campaign.ne. cbn. intros Hne.
  destruct (Z.eqb_spec x y) as [->|]; [by destruct Hne | done].
Qed.

Section campaign_event_save.
Context {DB : Type}.
Variables TYPE_FLOW TYPE_MESSAGE : string.
Variable create_single_message : Org.t → Z → pyval → DB → pyval * DB.
Variable update_single_message_flow : pyval → pyval → DB → DB.
Variable instance_save : CampaignEvent.t → DB → CampaignEvent.t * DB.
Variable update_flow_name : CampaignEvent.t → DB → CampaignEvent.t * DB.
Variable create_flow_event :
  Org.t → Z → pyval → pyval → pyval → pyval → pyval → pyval →
  DB → CampaignEvent.t * DB.
Variable create_message_event :
  Org.t → Z → pyval → pyval → pyval → pyval → pyval → pyval →
  DB → CampaignEvent.t * DB.

(** The model methods called on the event do not reassign its campaign. *)
Hypothesis instance_save_campaign :
  ∀ e db, CampaignEvent.campaign (instance_save e db).1 = CampaignEvent.campaign e.
Hypothesis update_flow_name_campaign :
  ∀ e db, CampaignEvent.campaign (update_flow_name e db).1 = CampaignEvent.campaign e.

(** C9: on an update, [validate_campaign] raises whenever the supplied
    campaign differs from the campaign of the bound event, and [save] on a
    bound event returns it with the campaign it had. *)
Theorem campaign_event_campaign_fixed (inst : CampaignEvent.t) :
  (∀ value, value ≠ CampaignEvent.campaign inst →
     CampaignEventWriteSerializer.validate_campaign (Some inst) (Some value)
     = Raise (Message "Cannot change campaign for existing events"))
  ∧ (∀ context validated_data db,
       CampaignEvent.campaign
         (CampaignEventWriteSerializer.save TYPE_FLOW TYPE_MESSAGE
            create_single_message update_single_message_flow instance_save
            update_flow_name create_flow_event create_message_event
            context validated_data (Some inst) db).1
       = CampaignEvent.campaign inst).
Proof.
  split.
  - intros value Hne. unfold CampaignEventWriteSerializer.validate_campaign.
    rewrite campaign_ne_true by congruence. reflexivity.
  - intros context validated_data db. unfold CampaignEventWriteSerializer.save.
    destruct (truthy (dict_get validated_data "flow")).
    + destruct (instance_save _ db) as [inst' db'] eqn:Esave.
      rewrite update_flow_name_campaign.
      change inst' with (inst', db').1. rewrite <- Esave.
      by rewrite instance_save_campaign.
    + destruct (negb _).
      * destruct (create_single_message _ _ _ db) as [f db1].
        destruct (instance_save _ db1) as [inst' db'] eqn:Esave.
        rewrite update_flow_name_campaign.
        change inst' with (inst', db').1. rewrite <- Esave.
        by rewrite instance_save_campaign.
      * destruct (instance_save _ _) as [inst' db'] eqn:Esave.
        rewrite update_flow_name_campaign.
        change inst' with (inst', db').1. rewrite <- Esave.
        by rewrite instance_save_campaign.
Qed.

End campaign_event_save.

Lemma campaign_event_campaign_fixed_witness :
  CampaignEventWriteSerializer.validate_campaign (Some Sample.event)
    (Some {| Campaign.pk := 11 |})
  = Raise (Message "Cannot change campaign for existing events")
  ∧ CampaignEvent.campaign
      (CampaignEventWriteSerializer.save "F" "M"
         Sample.create_single_message Sample.update_single_message_flow
         Sample.instance_save Sample.update_flow_name
         Sample.create_event Sample.create_event
         (Sample.context_of Sample.org ∅) Sample.event_payload
         (Some Sample.event) 0%Z).1
    = {| Campaign.pk := 10 |}.
Proof.
  split.
  - apply (proj1 (campaign_event_campaign_fixed "F" "M"
                    Sample.create_single_message Sample.update_single_message_flow
                    Sample.instance_save Sample.update_flow_name
                    Sample.create_event Sample.create_event
                    ltac:(reflexivity) ltac:(reflexivity) Sample.event)).
    vm_compute. discriminate.
  - apply (proj2 (campaign_event_campaign_fixed "F" "M"
                    Sample.create_single_message Sample.update_single_message_flow
                    Sample.instance_save Sample.update_flow_name
                    Sample.create_event Sample.create_event
                    ltac:(reflexivity) ltac:(reflexivity) Sample.event)).
Defined.

(** * Further properties *)

Set Warnings "-clear-no-such-hyp".

(** ** extract_constants: unknown codes, repeated codes, write then read *)

Section constants_tables.
Context {K : Type} `{Countable K}.
Implicit Types (config : list (Constants.row K)) (t : Constants.row K).

Lemma comprehension_snoc (key val : Constants.row K → K) config t :
  Constants.comprehension key val (config ++ [t])
  = <[key t := val t]> (Constants.comprehension key val config).
Proof. unfold Constants.comprehension. by rewrite foldl_app. Qed.

(** An entry of the table comes from a row of the config. *)
Lemma comprehension_inv (key val : Constants.row K → K) config k v :
  Constants.comprehension key val config !! k = Some v →
  ∃ t, t ∈ config ∧ key t = k ∧ val t = v.
Proof.
  induction config as [|t config IH] using rev_ind.
  - unfold Constants.comprehension. cbn. by rewrite lookup_empty.
  - rewrite comprehension_snoc. destruct (decide (key t = k)) as [<-|Hne].
    + rewrite lookup_insert_eq. intros [= <-]. exists t. set_solver.
    + rewrite lookup_insert_ne by done. intros Hk.
      destruct (IH Hk) as (t' & Hin & Hkey & Hval). exists t'. set_solver.
Qed.

Lemma comprehension_dom (key val : Constants.row K → K) config k :
  Constants.comprehension key val config !! k = None ↔ k ∉ key <$> config.
Proof.
  induction config as [|t config IH] using rev_ind.
  - unfold Constants.comprehension. cbn. rewrite lookup_empty. set_solver.
  - rewrite comprehension_snoc, fmap_app. cbn.
    destruct (decide (key t = k)) as [<-|Hne].
    + rewrite lookup_insert_eq. set_solver.
    + rewrite lookup_insert_ne by done. rewrite IH. set_solver.
Qed.

(** X1: in either direction the table has an entry for a code exactly when
    some row of the config has that code in the key column, so [.get] answers
    [None] exactly for the codes the config does not list. *)
Theorem extract_constants_unknown_code config (c : K) :
  (Constants.extract_constants config false !! c = None
     ↔ c ∉ Constants.internal <$> config)
  ∧ (Constants.extract_constants config true !! c = None
       ↔ c ∉ Constants.api <$> config).
Proof. split; apply comprehension_dom. Qed.

(** X2: when a code is repeated in the key column the last row wins: the
    table built from [config ++ [t] ++ rest] answers with the value of [t]
    whenever no row of [rest] has the key of [t], whatever [config] holds. *)
Theorem extract_constants_last_row_wins config t (rest : list (Constants.row K)) :
  (Constants.internal t ∉ Constants.internal <$> rest →
   Constants.extract_constants (config ++ [t] ++ rest) false !! Constants.internal t
   = Some (Constants.api t))
  ∧ (Constants.api t ∉ Constants.api <$> rest →
     Constants.extract_constants (config ++ [t] ++ rest) true !! Constants.api t
     = Some (Constants.internal t)).
Proof.
  unfold Constants.extract_constants, Constants.comprehension.
  split; intros Hfresh; rewrite !foldl_app; cbn [foldl];
    rewrite comprehension_fresh by done; apply lookup_insert_eq.
Qed.

End constants_tables.

Lemma extract_constants_last_row_wins_witness :
  Constants.extract_constants
    ([("P", "Pending", "pending")] ++ [("P", "Queued", "queued")]
       ++ [("S", "Sent", "sent")]) false !! "P"
  = Some "queued".
Proof.
  apply (proj1 (extract_constants_last_row_wins
                  [("P", "Pending", "pending")] ("P", "Queued", "queued")
                  [("S", "Sent", "sent")])).
  apply (bool_decide_unpack _). vm_compute. reflexivity.
Defined.

Lemma units_backward_forward (UNIT_CONFIG : list (Constants.row string)) value code :
  NoDup (Constants.internal <$> UNIT_CONFIG) →
  CampaignEventWriteSerializer.validate_unit UNIT_CONFIG value = Some code →
  CampaignEventReadSerializer.UNITS UNIT_CONFIG !! code = Some value.
Proof.
  intros Hnd Hcode.
  unfold CampaignEventWriteSerializer.validate_unit, CampaignEventWriteSerializer.UNITS,
    Constants.extract_constants in Hcode.
  apply comprehension_inv in Hcode as (t & Hin & <- & <-).
  unfold CampaignEventReadSerializer.UNITS, Constants.extract_constants,
    Constants.comprehension.
  by apply comprehension_lookup.
Qed.

(** X3: a unit accepted by the write serializer's choice field reads back as
    itself: when the internal codes of [UNIT_CONFIG] are pairwise distinct,
    [validate_unit] sends every choice to an internal code that the read
    serializer's table sends back to that choice. *)
Theorem unit_write_read_round_trip
    (UNIT_CONFIG : list (Constants.row string)) (value : string) :
  NoDup (Constants.internal <$> UNIT_CONFIG) →
  value ∈ CampaignEventWriteSerializer.unit_choices UNIT_CONFIG →
  ∃ code, CampaignEventWriteSerializer.validate_unit UNIT_CONFIG value = Some code
          ∧ CampaignEventReadSerializer.UNITS UNIT_CONFIG !! code = Some value.
Proof.
  intros Hnd Hchoice.
  unfold CampaignEventWriteSerializer.unit_choices in Hchoice.
  apply elem_of_dom in Hchoice as [code Hcode]. exists code. split; [done|].
  by apply units_backward_forward.
Qed.

Lemma unit_write_read_round_trip_witness :
  ∃ code, CampaignEventWriteSerializer.validate_unit Sample.unit_config "days" = Some code
          ∧ CampaignEventReadSerializer.UNITS Sample.unit_config !! code = Some "days".
Proof.
  apply (unit_write_read_round_trip Sample.unit_config "days").
  - apply (bool_decide_unpack _). vm_compute. reflexivity.
  - apply (bool_decide_unpack _). vm_compute. reflexivity.
Defined.

(** ** ContactWriteSerializer: groups, fields and the injected URN *)

Section contact_write_fields.
Variable context : Context.t.
Variable instance : option Contact.t.

Lemma check_static_returns (value : list ContactGroup.t) :
  ContactWriteSerializer.check_static value = Return ()
  ↔ Forall (λ g, ContactGroup.is_dynamic g = false) value.
Proof.
  induction value as [|g value IH]; cbn.
  - split; [constructor | done].
  - destruct (ContactGroup.is_dynamic g) eqn:E.
    + split; [done|]. intros Hall. apply Forall_cons in Hall as [Hg _]. congruence.
    + rewrite IH. split; [by constructor | by intros [_ ?]%Forall_cons].
Qed.

(** X4: [validate_groups] returns the groups exactly when none of them is
    dynamic and, if the bound contact is blocked or stopped, the list is
    empty; otherwise it raises.  The empty list is always accepted. *)
Theorem validate_groups_accepts (value : list ContactGroup.t) :
  let r := ContactWriteSerializer.validate_groups instance value in
  (r = Return value
     ↔ Forall (λ g, ContactGroup.is_dynamic g = false) value
       ∧ (barred instance → value = []))
  ∧ (r = Return value ∨ raises r)
  ∧ ContactWriteSerializer.validate_groups instance [] = Return [].
Proof.
  cbn zeta. unfold ContactWriteSerializer.validate_groups, barred.
  split_and!.
  - destruct (ContactWriteSerializer.check_static value) as [[]|e] eqn:Estatic.
    + apply check_static_returns in Estatic. cbn.
      destruct instance as [inst|]; cbn.
      * destruct value as [|g value]; cbn.
        { rewrite andb_false_r. cbn. naive_solver. }
        rewrite andb_true_r.
        destruct (Contact.is_blocked inst) eqn:Eb, (Contact.is_stopped inst) eqn:Es; cbn.
        all: split; [try done | intros [_ Hbar]].
        all: try (exfalso; assert (g :: value = []) as [=] by (apply Hbar; eauto)).
        -- intros _. split; [done|]. intros (? & [= <-] & [?|?]); congruence.
        -- done.
      * split; [|done]. intros _. split; [done|]. by intros (? & [=] & _).
    + cbn. split; [done|]. intros [Hall _].
      apply check_static_returns in Hall. congruence.
  - destruct (ContactWriteSerializer.check_static value) as [[]|e]; cbn;
      [|right; by eexists].
    destruct (match instance with Some _ => _ | None => _ end); cbn;
      [right; by eexists | by left].
  - cbn. destruct instance as [inst|]; cbn; [|done]. by rewrite andb_false_r.
Qed.

Lemma check_keys_returns (valid_keys : gset string) (items : list (string * pyval)) :
  ContactWriteSerializer.check_keys valid_keys items = Return ()
  ↔ ∀ kv, kv ∈ items → kv.1 ∈ valid_keys.
Proof.
  induction items as [|[k v] items IH]; cbn.
  - split; [|done]. intros _ kv Hin. by apply elem_of_nil in Hin.
  - case_bool_decide as Hk.
    + split; [done|]. intros Hall. destruct Hk. apply (Hall (k, v)). set_solver.
    + rewrite IH. split.
      * intros Hall kv [->|Hin]%elem_of_cons; [done | by apply Hall].
      * intros Hall kv Hin. apply Hall. set_solver.
Qed.

Lemma check_keys_raises (valid_keys : gset string) (items : list (string * pyval)) e :
  ContactWriteSerializer.check_keys valid_keys items = Raise e →
  ∃ kv, kv ∈ items ∧ (kv.1 ∉ valid_keys)
        ∧ e = Message ("Invalid contact field key: " ++ kv.1).
Proof.
  induction items as [|[k v] items IH]; cbn; [done|].
  case_bool_decide as Hk.
  - intros [= <-]. exists (k, v). set_solver.
  - intros Hr. destruct (IH Hr) as (kv & Hin & Hbad & ->). exists kv. set_solver.
Qed.

(** X5: [validate_fields] returns the dictionary exactly when every key of it
    is the key of a contact field of the request context; when it raises, the
    message names a key of the dictionary that is not such a key. *)
Theorem validate_fields_accepts (value : gmap string pyval) :
  let r := ContactWriteSerializer.validate_fields context value in
  let known k := k ∈ map ContactField.key (Context.contact_fields context) in
  (r = Return value ↔ ∀ k, is_Some (value !! k) → known k)
  ∧ (∀ e, r = Raise e →
       ∃ k, is_Some (value !! k) ∧ ¬ known k
            ∧ e = Message ("Invalid contact field key: " ++ k)).
Proof.
  cbn zeta. unfold ContactWriteSerializer.validate_fields. split.
  - destruct (ContactWriteSerializer.check_keys _ _) as [[]|e] eqn:Ekeys; cbn.
    + pose proof (proj1 (check_keys_returns _ _) Ekeys) as Hall.
      split; [intros _|done].
      intros k [v Hv]. apply elem_of_map_to_list in Hv.
      specialize (Hall (k, v) Hv). by apply elem_of_list_to_set in Hall.
    + split; [done|]. intros Hknown.
      apply check_keys_raises in Ekeys as ([k v] & Hin & Hbad & _).
      destruct Hbad. apply elem_of_list_to_set, Hknown.
      apply elem_of_map_to_list in Hin. eauto.
  - intros e. destruct (ContactWriteSerializer.check_keys _ _) as [[]|e'] eqn:Ekeys;
      cbn; [done|]. intros [= <-].
    apply check_keys_raises in Ekeys as ([k v] & Hin & Hbad & ->).
    exists k. apply elem_of_map_to_list in Hin. split_and!; [eauto| |done].
    intros Hk. apply Hbad. by apply elem_of_list_to_set.
Qed.

End contact_write_fields.

Lemma validate_groups_accepts_witness :
  ContactWriteSerializer.validate_groups (Some Sample.active_contact) [Sample.group]
  = Return [Sample.group]
  ∧ ContactWriteSerializer.validate_groups (Some Sample.blocked_contact) [Sample.group]
    ≠ Return [Sample.group]
  ∧ ContactWriteSerializer.validate_groups None [Sample.group; Sample.dynamic_group]
    ≠ Return [Sample.group; Sample.dynamic_group].
Proof.
  split_and!.
  - apply (proj1 (validate_groups_accepts (Some Sample.active_contact) [Sample.group])).
    split.
    + repeat constructor.
    + intros (inst & [= <-] & [Hb | Hs]); discriminate.
  - intros Hr.
    apply (proj1 (validate_groups_accepts (Some Sample.blocked_contact) [Sample.group]))
      in Hr as [_ Hbar].
    discriminate Hbar. eexists. split; [reflexivity | left; reflexivity].
  - intros Hr.
    apply (proj1 (validate_groups_accepts None [Sample.group; Sample.dynamic_group]))
      in Hr as [Hall _].
    apply Forall_cons in Hall as [_ Hall]. apply Forall_cons in Hall as [Hdyn _].
    discriminate Hdyn.
Defined.

Lemma validate_fields_accepts_witness :
  ContactWriteSerializer.validate_fields Sample.fields_context Sample.known_fields
  = Return Sample.known_fields
  ∧ ∃ k, is_Some (Sample.unknown_fields !! k)
         ∧ Message "Invalid contact field key: nickname"
           = Message ("Invalid contact field key: " ++ k).
Proof.
  split.
  - apply (proj1 (validate_fields_accepts Sample.fields_context Sample.known_fields)).
    intros k [v Hv]. unfold Sample.known_fields in Hv.
    apply lookup_singleton_Some in Hv as [<- _]. set_solver.
  - destruct (proj2 (validate_fields_accepts Sample.fields_context Sample.unknown_fields)
                (Message "Invalid contact field key: nickname"))
      as (k & Hk & _ & He).
    + vm_compute. reflexivity.
    + exists k. split; assumption.
Defined.

(** X6: [validate] leaves a payload alone when it carries URNs or when the
    lookup was not by URN; in every case it changes no key other than [urns],
    and a payload it returned passes through it unchanged once more. *)
Theorem contact_validate_settles
    (validate_urn : string → result string) (context : Context.t)
    (data : gmap string pyval) :
  let validate := ContactWriteSerializer.validate validate_urn context in
  (truthy (dict_get data "urns") = true → validate data = Return data)
  ∧ (Context.lookup_values context !! "urns__urn" = None → validate data = Return data)
  ∧ (∀ data', validate data = Return data' →
       validate data' = Return data'
       ∧ ∀ k, k ≠ "urns" → data' !! k = data !! k).
Proof.
  cbn zeta. unfold ContactWriteSerializer.validate. split_and!.
  - by intros ->.
  - intros ->. by destruct (truthy _).
  - intros data'. destruct (truthy (dict_get data "urns")) eqn:Eurns; cbn.
    { intros [= <-]. by rewrite Eurns. }
    destruct (Context.lookup_values context !! "urns__urn") as [url_urn|] eqn:El.
    + destruct (validate_urn url_urn) as [urn|e]; cbn; [|done]. intros [= <-].
      unfold dict_get. rewrite lookup_insert_eq. cbn. split; [done|].
      intros k Hk. by rewrite lookup_insert_ne.
    + intros [= <-]. by rewrite Eurns.
Qed.

Lemma contact_validate_settles_witness :
  ContactWriteSerializer.validate Sample.validate_urn
    (Sample.context_of Sample.org Sample.urn_lookup) Sample.broadcast
  = Return Sample.broadcast
  ∧ ContactWriteSerializer.validate Sample.validate_urn
      (Sample.context_of Sample.org ∅) Sample.contact_payload
    = Return Sample.contact_payload
  ∧ ContactWriteSerializer.validate Sample.validate_urn
      (Sample.context_of Sample.org Sample.urn_lookup)
      (<["urns" := PyList [PyStr "tel:+250788123123"]]> Sample.contact_payload)
    = Return (<["urns" := PyList [PyStr "tel:+250788123123"]]> Sample.contact_payload).
Proof.
  split_and!.
  - apply (proj1 (contact_validate_settles Sample.validate_urn
                    (Sample.context_of Sample.org Sample.urn_lookup) Sample.broadcast)).
    vm_compute. reflexivity.
  - apply (proj1 (proj2 (contact_validate_settles Sample.validate_urn
                           (Sample.context_of Sample.org ∅) Sample.contact_payload))).
    vm_compute. reflexivity.
  - apply (proj2 (proj2 (contact_validate_settles Sample.validate_urn
                           (Sample.context_of Sample.org Sample.urn_lookup)
                           Sample.contact_payload))).
    vm_compute. reflexivity.
Defined.

(** ** ContactWriteSerializer.save *)

Section contact_save.
Variable context : Context.t.
Variable get_or_create :
  Org.t → Z → option string → option (list string) → option string → Contact.t.

Lemma set_field_calls (user : Z) (items : list (string * pyval))
    (calls : list ContactWriteSerializer.call) :
  foldl (λ calls kv, (calls ++ [ContactWriteSerializer.set_field user kv.1 kv.2])%list)
        calls items
  = (calls ++ map (λ kv, ContactWriteSerializer.set_field user kv.1 kv.2) items)%list.
Proof.
  revert calls. induction items as [|kv items IH]; intros calls; cbn.
  - by rewrite app_nil_r.
  - by rewrite IH, <- app_assoc.
Qed.

(** The calls of [save] are those it makes for the payload without [fields]
    and [groups], then one [set_field] per custom field, then the group
    update. *)
Lemma save_calls (instance : option Contact.t) (data : ContactWriteSerializer.validated_data) :
  let base := ContactWriteSerializer.Build_validated_data
                (ContactWriteSerializer.name data) (ContactWriteSerializer.language data)
                (ContactWriteSerializer.urns data) None None in
  let head := ContactWriteSerializer.save context instance get_or_create base in
  ContactWriteSerializer.save context instance get_or_create data
  = (head.1,
     (head.2
      ++ map (λ kv, ContactWriteSerializer.set_field (Context.user context) kv.1 kv.2)
             (from_option map_to_list [] (ContactWriteSerializer.fields data))
      ++ from_option
           (λ gs, [ContactWriteSerializer.update_static_groups (Context.user context) gs])
           [] (ContactWriteSerializer.groups data))%list).
Proof.
  unfold ContactWriteSerializer.save. cbn.
  destruct instance as [inst|].
  - destruct (bool_decide (is_Some (ContactWriteSerializer.name data)) && _);
      destruct (bool_decide (is_Some (ContactWriteSerializer.language data)) && _);
      destruct (ContactWriteSerializer.urns data) as [urns|];
      destruct (ContactWriteSerializer.fields data) as [fs|];
      destruct (ContactWriteSerializer.groups data) as [gs|]; cbn;
      by rewrite ?set_field_calls, ?app_nil_r, <- ?app_assoc.
  - destruct (ContactWriteSerializer.fields data) as [fs|];
      destruct (ContactWriteSerializer.groups data) as [gs|]; cbn;
      by rewrite ?set_field_calls, ?app_nil_r.
Qed.

(** Without [fields] and [groups], [save] makes no call on creation and only
    [update_urns] and [instance_save] calls on an update. *)
Lemma save_head_calls (instance : option Contact.t)
    (name language : option (option string)) (urns : option (list string)) :
  let head := ContactWriteSerializer.save context instance get_or_create
                (ContactWriteSerializer.Build_validated_data name language urns None None) in
  (instance = None →
   head = (get_or_create (Context.org context) (Context.user context)
             (mjoin name) urns (mjoin language), []))
  ∧ ∀ c, c ∈ head.2 →
         (∃ us, c = ContactWriteSerializer.update_urns (Context.user context) us)
         ∨ (∃ uf, c = ContactWriteSerializer.instance_save uf).
Proof.
  unfold ContactWriteSerializer.save. cbn.
  destruct instance as [inst|]; cbn.
  - split; [done|].
    destruct (bool_decide (is_Some name) && _); destruct (bool_decide (is_Some language) && _);
      destruct urns as [urns|]; cbn; intros c Hc;
      repeat (apply elem_of_cons in Hc as [->|Hc]; [eauto|]);
      by apply elem_of_nil in Hc.
  - split; [done|]. intros c Hc. by apply elem_of_nil in Hc.
Qed.

(** X7: whether a contact is updated or created, [save] calls [set_field]
    exactly for the entries of the [fields] dictionary and
    [update_static_groups] exactly when the payload has [groups], with that
    list; on creation it makes no other call on the contact. *)
Theorem contact_save_fields_and_groups
    (instance : option Contact.t) (data : ContactWriteSerializer.validated_data) :
  let r := ContactWriteSerializer.save context instance get_or_create data in
  let user := Context.user context in
  (∀ k v, ContactWriteSerializer.set_field user k v ∈ r.2
          ↔ ∃ fs, ContactWriteSerializer.fields data = Some fs ∧ fs !! k = Some v)
  ∧ (∀ gs, ContactWriteSerializer.update_static_groups user gs ∈ r.2
           ↔ ContactWriteSerializer.groups data = Some gs)
  ∧ (instance = None →
     r.1 = get_or_create (Context.org context) user
             (mjoin (ContactWriteSerializer.name data))
             (ContactWriteSerializer.urns data)
             (mjoin (ContactWriteSerializer.language data))
     ∧ ∀ c, c ∈ r.2 → (∃ k v, c = ContactWriteSerializer.set_field user k v)
                      ∨ (∃ gs, c = ContactWriteSerializer.update_static_groups user gs)).
Proof.
  cbn zeta. rewrite save_calls. cbn [fst snd].
  destruct (save_head_calls instance (ContactWriteSerializer.name data)
              (ContactWriteSerializer.language data) (ContactWriteSerializer.urns data))
    as [Hnew Hhead].
  cbn zeta in Hnew, Hhead.
  set (head := ContactWriteSerializer.save _ _ _ _) in *. clearbody head.
  split_and!.
  - intros k v. rewrite !elem_of_app, list_elem_of_fmap. split.
    + intros [Hin|[([k' v'] & [= -> ->] & Hin)|Hin]].
      * destruct (Hhead _ Hin) as [[? [=]]|[? [=]]].
      * destruct (ContactWriteSerializer.fields data) as [fs|]; cbn in Hin.
        -- exists fs. split; [done|]. by apply elem_of_map_to_list.
        -- by apply elem_of_nil in Hin.
      * destruct (ContactWriteSerializer.groups data); cbn in Hin; set_solver.
    + intros (fs & -> & Hkv). right; left. exists (k, v).
      split; [done|]. by apply elem_of_map_to_list.
  - intros gs. rewrite !elem_of_app, list_elem_of_fmap. split.
    + intros [Hin|[([k' v'] & [=] & _)|Hin]].
      * destruct (Hhead _ Hin) as [[? [=]]|[? [=]]].
      * destruct (ContactWriteSerializer.groups data); cbn in Hin; set_solver.
    + intros ->. cbn. set_solver.
  - intros ->. rewrite (Hnew eq_refl). split.
    + reflexivity.
    + cbn. intros c.
      rewrite elem_of_app, list_elem_of_fmap.
      intros [([k v] & -> & _)|Hin]; [left; eauto|].
      destruct (ContactWriteSerializer.groups data) as [gs|]; cbn in Hin; set_solver.
Qed.

(** A call other than [set_field] and [update_static_groups] is made by
    [save] exactly when it is made for the payload without [fields] and
    [groups]. *)
Lemma save_head_only (instance : option Contact.t)
    (data : ContactWriteSerializer.validated_data) (c : ContactWriteSerializer.call) :
  (∀ u k v, c ≠ ContactWriteSerializer.set_field u k v) →
  (∀ u gs, c ≠ ContactWriteSerializer.update_static_groups u gs) →
  c ∈ (ContactWriteSerializer.save context instance get_or_create data).2
  ↔ c ∈ (ContactWriteSerializer.save context instance get_or_create
           (ContactWriteSerializer.Build_validated_data
              (ContactWriteSerializer.name data) (ContactWriteSerializer.language data)
              (ContactWriteSerializer.urns data) None None)).2.
Proof.
  intros Hf Hg. rewrite save_calls. cbn [snd].
  rewrite !elem_of_app, list_elem_of_fmap. split; [|by left].
  intros [Hin|[([k v] & -> & _)|Hin]]; [done | by edestruct Hf |].
  destruct (ContactWriteSerializer.groups data) as [gs|]; cbn in Hin.
  - apply list_elem_of_singleton in Hin as ->. by edestruct Hg.
  - by apply elem_of_nil in Hin.
Qed.

(** X8: on an update, [save] writes the contact only when the payload changes
    it: an [instance_save] call is made exactly when the payload has a [name]
    or a [language] that differs from the stored one, and its [update_fields]
    lists exactly the attributes that differ; [update_urns] is called exactly
    with the URNs of the payload; and the returned contact carries the
    payload's name and language where the payload has them. *)
Theorem contact_save_writes_changes
    (inst : Contact.t) (data : ContactWriteSerializer.validated_data) :
  let r := ContactWriteSerializer.save context (Some inst) get_or_create data in
  let name_changed :=
    is_Some (ContactWriteSerializer.name data)
    ∧ mjoin (ContactWriteSerializer.name data) ≠ Contact.name inst in
  let language_changed :=
    is_Some (ContactWriteSerializer.language data)
    ∧ mjoin (ContactWriteSerializer.language data) ≠ Contact.language inst in
  (∀ uf, ContactWriteSerializer.instance_save uf ∈ r.2 →
         ("name" ∈ uf ↔ name_changed) ∧ ("language" ∈ uf ↔ language_changed)
         ∧ ∀ f, f ∈ uf → f = "name" ∨ f = "language")
  ∧ ((∃ uf, ContactWriteSerializer.instance_save uf ∈ r.2)
       ↔ name_changed ∨ language_changed)
  ∧ (∀ us, ContactWriteSerializer.update_urns (Context.user context) us ∈ r.2
           ↔ ContactWriteSerializer.urns data = Some us)
  ∧ Contact.name r.1 = default (Contact.name inst) (ContactWriteSerializer.name data)
  ∧ Contact.language r.1
    = default (Contact.language inst) (ContactWriteSerializer.language data).
Proof.
  cbn zeta. split_and!.
  - intros uf. rewrite save_head_only by done.
    unfold ContactWriteSerializer.save. cbn.
    destruct (ContactWriteSerializer.name data) as [n|],
      (ContactWriteSerializer.language data) as [l|],
      (ContactWriteSerializer.urns data) as [us'|]; cbn;
      repeat (case_bool_decide; cbn);
      rewrite ?is_Some_alt; set_unfold; intros Hin; destruct_or?; simplify_eq;
      set_unfold; naive_solver.
  - split.
    + intros [uf Hin]. revert Hin. rewrite save_head_only by done.
      unfold ContactWriteSerializer.save. cbn.
      destruct (ContactWriteSerializer.name data) as [n|],
        (ContactWriteSerializer.language data) as [l|],
        (ContactWriteSerializer.urns data) as [us'|]; cbn;
        repeat (case_bool_decide; cbn);
        rewrite ?is_Some_alt; set_unfold; intros Hin; destruct_or?; simplify_eq;
        naive_solver.
    + intros Hch.
      assert (∃ uf, ContactWriteSerializer.instance_save uf
                    ∈ (ContactWriteSerializer.save context (Some inst) get_or_create
                         (ContactWriteSerializer.Build_validated_data
                            (ContactWriteSerializer.name data)
                            (ContactWriteSerializer.language data)
                            (ContactWriteSerializer.urns data) None None)).2)
        as [uf Huf]; [|exists uf; by apply save_head_only].
      revert Hch. unfold ContactWriteSerializer.save. cbn.
      destruct (ContactWriteSerializer.name data) as [n|],
        (ContactWriteSerializer.language data) as [l|],
        (ContactWriteSerializer.urns data) as [us'|]; cbn;
        repeat (case_bool_decide; cbn);
        rewrite ?is_Some_alt; set_unfold; naive_solver.
  - intros us. rewrite save_head_only by done.
    unfold ContactWriteSerializer.save. cbn.
    destruct (ContactWriteSerializer.name data) as [n|],
      (ContactWriteSerializer.language data) as [l|],
      (ContactWriteSerializer.urns data) as [us'|]; cbn;
      repeat (case_bool_decide; cbn); set_unfold; naive_solver.
  - rewrite save_calls. cbn [fst]. unfold ContactWriteSerializer.save. cbn.
    destruct (ContactWriteSerializer.name data) as [n|],
      (ContactWriteSerializer.language data) as [l|]; cbn;
      repeat (case_bool_decide; cbn); congruence.
  - rewrite save_calls. cbn [fst]. unfold ContactWriteSerializer.save. cbn.
    destruct (ContactWriteSerializer.name data) as [n|],
      (ContactWriteSerializer.language data) as [l|]; cbn;
      repeat (case_bool_decide; cbn); congruence.
Qed.

End contact_save.

(** ** ContactReadSerializer.get_contact_fields *)

Section keyed_fold.
Context {A V : Type}.
Variable key : A → string.
Variable val : A → V.
Implicit Types (items : list A) (m : gmap string V).

Lemma keyed_fold_snoc items a m :
  foldl (λ m a, <[key a := val a]> m) m (items ++ [a])
  = <[key a := val a]> (foldl (λ m a, <[key a := val a]> m) m items).
Proof. by rewrite foldl_app. Qed.

Lemma keyed_fold_none items k :
  foldl (λ m a, <[key a := val a]> m) ∅ items !! k = None ↔ k ∉ key <$> items.
Proof.
  induction items as [|a items IH] using rev_ind.
  - cbn. rewrite lookup_empty. set_solver.
  - rewrite keyed_fold_snoc, fmap_app. cbn.
    destruct (decide (key a = k)) as [<-|Hne].
    + rewrite lookup_insert_eq. set_solver.
    + rewrite lookup_insert_ne by done. rewrite IH. set_solver.
Qed.

Lemma keyed_fold_some items k v :
  foldl (λ m a, <[key a := val a]> m) ∅ items !! k = Some v →
  ∃ a, a ∈ items ∧ key a = k ∧ val a = v.
Proof.
  induction items as [|a items IH] using rev_ind.
  - cbn. by rewrite lookup_empty.
  - rewrite keyed_fold_snoc. destruct (decide (key a = k)) as [<-|Hne].
    + rewrite lookup_insert_eq. intros [= <-]. exists a. set_solver.
    + rewrite lookup_insert_ne by done. intros Hk.
      destruct (IH Hk) as (a' & Hin & Hkey & Hval). exists a'. set_solver.
Qed.

Lemma keyed_fold_nodup items a :
  NoDup (key <$> items) → a ∈ items →
  foldl (λ m a, <[key a := val a]> m) ∅ items !! key a = Some (val a).
Proof.
  induction items as [|a' items IH] using rev_ind; intros Hnd Hin.
  - by apply elem_of_nil in Hin.
  - rewrite keyed_fold_snoc. rewrite fmap_app in Hnd.
    apply NoDup_app in Hnd as (Hnd & Hfresh & _).
    apply elem_of_app in Hin as [Hin|Hin].
    + rewrite lookup_insert_ne; [by apply IH|].
      intros Heq. apply (Hfresh (key a)); [by apply list_elem_of_fmap_2|].
      rewrite <- Heq. set_solver.
    + apply list_elem_of_singleton in Hin as ->. apply lookup_insert_eq.
Qed.

End keyed_fold.

(** X9: for an active contact the [fields] dictionary has one entry per
    contact field key of the request context and no other; every entry is the
    serialized value of such a field for this contact, and with pairwise
    distinct keys each field is found under its key. *)
Theorem contact_fields_projection
    (serialize_field_value : ContactField.t → pyval → pyval)
    (context : Context.t) (obj : Contact.t) :
  Contact.is_active obj = true →
  ∃ fields,
    ContactReadSerializer.get_contact_fields serialize_field_value context obj
    = PyDict fields
    ∧ (∀ k, fields !! k = None
            ↔ k ∉ ContactField.key <$> Context.contact_fields context)
    ∧ (∀ k v, fields !! k = Some v →
         ∃ f, f ∈ Context.contact_fields context ∧ ContactField.key f = k
              ∧ v = serialize_field_value f (Contact.get_field obj k))
    ∧ (NoDup (ContactField.key <$> Context.contact_fields context) →
       ∀ f, f ∈ Context.contact_fields context →
         fields !! ContactField.key f
         = Some (serialize_field_value f (Contact.get_field obj (ContactField.key f)))).
Proof.
  intros Hactive. unfold ContactReadSerializer.get_contact_fields.
  rewrite Hactive. cbn. eexists. split; [reflexivity|]. split_and!.
  - intros k.
    apply (keyed_fold_none ContactField.key
             (λ f, serialize_field_value f (Contact.get_field obj (ContactField.key f)))).
  - intros k v Hkv.
    apply (keyed_fold_some ContactField.key
             (λ f, serialize_field_value f (Contact.get_field obj (ContactField.key f))))
      in Hkv as (f & Hin & <- & <-).
    eauto.
  - intros Hnd f Hin.
    by apply (keyed_fold_nodup ContactField.key
                (λ f, serialize_field_value f (Contact.get_field obj (ContactField.key f)))).
Qed.

Lemma contact_fields_projection_witness :
  ∃ fields,
    ContactReadSerializer.get_contact_fields Sample.serialize_field_value
      Sample.fields_context Sample.active_contact
    = PyDict fields
    ∧ (∀ k, fields !! k = None
            ↔ k ∉ ContactField.key <$> Context.contact_fields Sample.fields_context)
    ∧ (∀ k v, fields !! k = Some v →
         ∃ f, f ∈ Context.contact_fields Sample.fields_context ∧ ContactField.key f = k
              ∧ v = Sample.serialize_field_value f
                      (Contact.get_field Sample.active_contact k))
    ∧ (NoDup (ContactField.key <$> Context.contact_fields Sample.fields_context) →
       ∀ f, f ∈ Context.contact_fields Sample.fields_context →
         fields !! ContactField.key f
         = Some (Sample.serialize_field_value f
                   (Contact.get_field Sample.active_contact (ContactField.key f)))).
Proof.
  apply (contact_fields_projection Sample.serialize_field_value
           Sample.fields_context Sample.active_contact).
  reflexivity.
Defined.

(** ** FlowRunReadSerializer.get_step_messages *)

Section step_messages.
Context {Run : Type}.
Variable get_translated_text : FlowStep.broadcast → Run → string.

Lemma append_entries {A} (f : A → pyval) (items : list A) (acc : list pyval) :
  foldl (λ messages m, (messages ++ [f m])%list) acc items
  = (acc ++ map f items)%list.
Proof.
  revert acc. induction items as [|m items IH]; intros acc; cbn.
  - by rewrite app_nil_r.
  - by rewrite IH, <- app_assoc.
Qed.

Lemma append_purged (run : Run) (bs : list FlowStep.broadcast) (acc : list pyval) :
  foldl (λ messages b,
           if FlowStep.purged b
           then (messages
                 ++ [FlowRunReadSerializer.broadcast_entry get_translated_text run b])%list
           else messages) acc bs
  = (acc ++ map (FlowRunReadSerializer.broadcast_entry get_translated_text run)
               (filter (λ b, FlowStep.purged b = true) bs))%list.
Proof.
  revert acc. induction bs as [|b bs IH]; intros acc.
  - cbn. by rewrite app_nil_r.
  - cbn [foldl]. rewrite IH. destruct (FlowStep.purged b) eqn:E.
    + rewrite filter_cons_True by done. cbn [map]. by rewrite <- app_assoc.
    + by rewrite filter_cons_False by congruence.
Qed.

(** X10: the messages of a step are the step's stored messages in their
    order, followed by one entry per purged broadcast in their order; a
    broadcast that is not purged contributes no entry, and the entry of a
    purged broadcast has [id] [None]. *)
Theorem step_messages_layout (run : Run) (step : FlowStep.t) :
  let entries := FlowRunReadSerializer.get_step_messages get_translated_text run step in
  entries
  = (map FlowRunReadSerializer.message_entry (FlowStep.messages step)
     ++ map (FlowRunReadSerializer.broadcast_entry get_translated_text run)
            (filter (λ b, FlowStep.purged b = true) (FlowStep.broadcasts step)))%list
  ∧ length entries
    = (length (FlowStep.messages step)
       + length (filter (λ b, FlowStep.purged b = true) (FlowStep.broadcasts step)))%nat
  ∧ (∀ (i : nat) entry,
       entries !! i = Some entry → (length (FlowStep.messages step) ≤ i)%nat →
       ∃ b d, b ∈ FlowStep.broadcasts step ∧ FlowStep.purged b = true
              ∧ entry = PyDict d ∧ d !! "id" = Some PyNone
              ∧ d !! "broadcast" = Some (PyInt (FlowStep.id b))).
Proof.
  cbn zeta.
  assert (FlowRunReadSerializer.get_step_messages get_translated_text run step
          = (map FlowRunReadSerializer.message_entry (FlowStep.messages step)
             ++ map (FlowRunReadSerializer.broadcast_entry get_translated_text run)
                    (filter (λ b, FlowStep.purged b = true) (FlowStep.broadcasts step)))%list)
    as ->.
  { unfold FlowRunReadSerializer.get_step_messages.
    by rewrite append_entries, append_purged. }
  split_and!.
  - reflexivity.
  - by rewrite length_app, !length_map.
  - intros i entry Hi Hge.
    rewrite lookup_app_r in Hi by (by rewrite length_map).
    apply list_lookup_fmap_Some in Hi as (b & -> & Hb).
    apply list_elem_of_lookup_2, list_elem_of_filter in Hb as [Hp Hin].
    exists b. eexists. split_and!; [done | done | reflexivity | |].
    + rewrite lookup_insert_ne by done. rewrite lookup_insert_ne by done.
      apply lookup_insert_eq.
    + rewrite lookup_insert_ne by done. apply lookup_insert_eq.
Qed.

End step_messages.

Lemma step_messages_layout_witness :
  ∃ b d, b ∈ FlowStep.broadcasts Sample.step ∧ FlowStep.purged b = true
         ∧ PyDict (<["text" := PyStr "Hi"]>
                   (<["broadcast" := PyInt 9]> (<["id" := PyNone]> ∅))) = PyDict d
         ∧ d !! "id" = Some PyNone
         ∧ d !! "broadcast" = Some (PyInt (FlowStep.id b)).
Proof.
  apply (proj2 (proj2 (step_messages_layout Sample.get_translated_text 0%Z Sample.step))
           1%nat).
  - reflexivity.
  - cbn. apply le_n.
Defined.

(** ** FlowStartWriteSerializer.validate *)

Lemma list_or_missing_get data k :
  list_or_missing data k → ∃ xs, dict_get_or data k (PyList []) = PyList xs.
Proof. unfold dict_get_or. intros [-> | [xs ->]]; cbn; eauto. Qed.

(** X11: on a payload whose [groups], [contacts] and [urns] are lists or
    missing, [FlowStartWriteSerializer.validate] raises when all three are
    missing or empty and returns the data when one of them is a non-empty
    list; the addition of the three never fails. *)
Theorem flow_start_validate (data : gmap string pyval) :
  list_or_missing data "groups" → list_or_missing data "contacts" →
  list_or_missing data "urns" →
  (no_recipients data "groups" ∧ no_recipients data "contacts"
     ∧ no_recipients data "urns" →
   FlowStartWriteSerializer.validate data
   = Some (Raise (Message "Must specify at least one group, contact or URN")))
  ∧ (some_recipients data "groups" ∨ some_recipients data "contacts"
       ∨ some_recipients data "urns" →
     FlowStartWriteSerializer.validate data = Some (Return data))
  ∧ is_Some (FlowStartWriteSerializer.validate data).
Proof.
  intros Hg Hc Hu. unfold FlowStartWriteSerializer.validate.
  split_and!.
  - intros (Ng & Nc & Nu). unfold dict_get_or.
    by destruct Ng as [-> | ->], Nc as [-> | ->], Nu as [-> | ->].
  - apply list_or_missing_get in Hg as [gs Eg], Hc as [cs Ec], Hu as [us Eu].
    rewrite Eg, Ec, Eu. cbn.
    unfold some_recipients, dict_get_or in *.
    intros [(x & xs & E) | [(x & xs & E) | (x & xs & E)]]; rewrite E in *;
      cbn in *; simplify_eq; cbn; [done | |].
    + by destruct gs.
    + by destruct gs, cs.
  - apply list_or_missing_get in Hg as [gs ->], Hc as [cs ->], Hu as [us ->].
    cbn. by destruct (negb _).
Qed.

Lemma flow_start_validate_witness :
  FlowStartWriteSerializer.validate Sample.empty_flow_start
  = Some (Raise (Message "Must specify at least one group, contact or URN"))
  ∧ FlowStartWriteSerializer.validate Sample.flow_start = Some (Return Sample.flow_start).
Proof.
  split.
  - apply (proj1 (flow_start_validate Sample.empty_flow_start
                    ltac:(left; vm_compute; reflexivity)
                    ltac:(right; eexists; vm_compute; reflexivity)
                    ltac:(right; eexists; vm_compute; reflexivity))).
    split_and!; [left | right | right]; vm_compute; reflexivity.
  - apply (proj1 (proj2 (flow_start_validate Sample.flow_start
                           ltac:(right; eexists; vm_compute; reflexivity)
                           ltac:(left; vm_compute; reflexivity)
                           ltac:(left; vm_compute; reflexivity)))).
    left. eexists _, _. vm_compute. reflexivity.
Defined.

Lemma list_truthy data k :
  list_or_missing data k →
  truthy (dict_get data k) = truthy (dict_get_or data k (PyList [])).
Proof. unfold dict_get, dict_get_or. by intros [-> | [xs ->]]. Qed.

(** X12: a broadcast and a flow start demand the same recipients: on a
    payload whose [groups], [contacts] and [urns] are lists or missing, and
    for an org that is not suspended, [BroadcastWriteSerializer.validate]
    raises exactly when [FlowStartWriteSerializer.validate] does. *)
Theorem broadcast_and_flow_start_agree (context : Context.t) (data : gmap string pyval) :
  list_or_missing data "groups" → list_or_missing data "contacts" →
  list_or_missing data "urns" →
  Org.is_suspended (Context.org context) = false →
  raises (BroadcastWriteSerializer.validate context data)
  ↔ ∃ r, FlowStartWriteSerializer.validate data = Some r ∧ raises r.
Proof.
  intros Hg Hc Hu Hactive.
  unfold BroadcastWriteSerializer.validate, FlowStartWriteSerializer.validate.
  rewrite Hactive, (list_truthy _ _ Hg), (list_truthy _ _ Hc), (list_truthy _ _ Hu).
  apply list_or_missing_get in Hg as [gs ->], Hc as [cs ->], Hu as [us ->]. cbn.
  destruct gs, cs, us; cbn; unfold raises; split;
    try (intros [e [=]]); try (intros (r & [= <-] & e & [=])); eauto.
Qed.

Lemma broadcast_and_flow_start_agree_witness :
  raises (BroadcastWriteSerializer.validate (Sample.context_of Sample.org ∅)
            Sample.empty_flow_start)
  ↔ ∃ r, FlowStartWriteSerializer.validate Sample.empty_flow_start = Some r ∧ raises r.
Proof.
  apply (broadcast_and_flow_start_agree (Sample.context_of Sample.org ∅)
           Sample.empty_flow_start).
  - left. vm_compute. reflexivity.
  - right. eexists. vm_compute. reflexivity.
  - right. eexists. vm_compute. reflexivity.
  - reflexivity.
Defined.

(** ** CampaignEventWriteSerializer.save on an existing event *)

Section campaign_event_update.
Context {DB : Type}.
Variables TYPE_FLOW TYPE_MESSAGE : string.
Variable create_single_message : Org.t → Z → pyval → DB → pyval * DB.
Variable update_single_message_flow : pyval → pyval → DB → DB.
Variable instance_save : CampaignEvent.t → DB → CampaignEvent.t * DB.
Variable update_flow_name : CampaignEvent.t → DB → CampaignEvent.t * DB.
Variable create_flow_event :
  Org.t → Z → pyval → pyval → pyval → pyval → pyval → pyval →
  DB → CampaignEvent.t * DB.
Variable create_message_event :
  Org.t → Z → pyval → pyval → pyval → pyval → pyval → pyval →
  DB → CampaignEvent.t * DB.

(** The model methods called on the event leave its attributes as they are
    (they write the row and rename the flow). *)
Hypothesis instance_save_keeps : ∀ e db, (instance_save e db).1 = e.
Hypothesis update_flow_name_keeps : ∀ e db, (update_flow_name e db).1 = e.

Lemma save_existing_result (context : Context.t) (data : gmap string pyval)
    (inst : CampaignEvent.t) (db : DB) :
  ∃ e db',
    (CampaignEventWriteSerializer.save TYPE_FLOW TYPE_MESSAGE
       create_single_message update_single_message_flow instance_save
       update_flow_name create_flow_event create_message_event
       context data (Some inst) db).1
    = CampaignEvent.set_relative_to (dict_get data "relative_to")
        (CampaignEvent.set_delivery_hour (dict_get data "delivery_hour")
           (CampaignEvent.set_unit (dict_get data "unit")
              (CampaignEvent.set_offset (dict_get data "offset") e)))
    ∧ (e, db')
      = if truthy (dict_get data "flow") then
          (CampaignEvent.set_message PyNone
             (CampaignEvent.set_event_type TYPE_FLOW
                (CampaignEvent.set_flow (dict_get data "flow") inst)), db)
        else if negb (String.eqb (CampaignEvent.event_type inst) TYPE_MESSAGE) then
          (CampaignEvent.set_event_type TYPE_MESSAGE
             (CampaignEvent.set_flow
                (create_single_message (Context.org context) (Context.user context)
                   (dict_get data "message") db).1
                (CampaignEvent.set_message (dict_get data "message") inst)),
           (create_single_message (Context.org context) (Context.user context)
              (dict_get data "message") db).2)
        else
          (CampaignEvent.set_message (dict_get data "message") inst,
           update_single_message_flow (CampaignEvent.flow inst)
             (dict_get data "message") db).
Proof.
  unfold CampaignEventWriteSerializer.save.
  destruct (truthy (dict_get data "flow")).
  - eexists _, _. split; [|reflexivity].
    destruct (instance_save _ db) as [e1 db1] eqn:E1. rewrite update_flow_name_keeps.
    change e1 with (e1, db1).1. by rewrite <- E1, instance_save_keeps.
  - cbn [CampaignEvent.event_type CampaignEvent.set_message].
    destruct (negb _).
    + destruct (create_single_message _ _ _ db) as [f db0]. cbn [fst snd].
      eexists _, _. split; [|reflexivity].
      destruct (instance_save _ db0) as [e1 db1] eqn:E1. rewrite update_flow_name_keeps.
      change e1 with (e1, db1).1. by rewrite <- E1, instance_save_keeps.
    + eexists _, _. split; [|reflexivity].
      destruct (instance_save _ _) as [e1 db1] eqn:E1. rewrite update_flow_name_keeps.
      change e1 with (e1, db1).1. by rewrite <- E1, instance_save_keeps.
Qed.

(** X13: saving a payload that [validate] accepted into an existing event
    leaves it either a flow event without message, referencing the flow of
    the payload, or a message event carrying the non-empty message of the
    payload; an event that already was a message event keeps its flow
    reference.  The other attributes are those of the payload. *)
Theorem campaign_event_update_exactly_one
    (context : Context.t) (data : gmap string pyval) (inst : CampaignEvent.t) (db : DB) :
  CampaignEventWriteSerializer.validate data = Return data →
  let e := (CampaignEventWriteSerializer.save TYPE_FLOW TYPE_MESSAGE
              create_single_message update_single_message_flow instance_save
              update_flow_name create_flow_event create_message_event
              context data (Some inst) db).1 in
  ((CampaignEvent.event_type e = TYPE_FLOW ∧ CampaignEvent.message e = PyNone
      ∧ CampaignEvent.flow e = dict_get data "flow"
      ∧ truthy (CampaignEvent.flow e) = true)
   ∨ (CampaignEvent.event_type e = TYPE_MESSAGE
        ∧ CampaignEvent.message e = dict_get data "message"
        ∧ truthy (CampaignEvent.message e) = true
        ∧ truthy (dict_get data "flow") = false
        ∧ (CampaignEvent.event_type inst = TYPE_MESSAGE →
           CampaignEvent.flow e = CampaignEvent.flow inst)))
  ∧ CampaignEvent.offset e = dict_get data "offset"
  ∧ CampaignEvent.unit e = dict_get data "unit"
  ∧ CampaignEvent.delivery_hour e = dict_get data "delivery_hour"
  ∧ CampaignEvent.relative_to e = dict_get data "relative_to".
Proof.
  intros Hvalid. cbn zeta.
  destruct (save_existing_result context data inst db) as (e & db' & -> & He).
  cbn. split; [|done].
  unfold CampaignEventWriteSerializer.validate in Hvalid. cbn zeta in Hvalid.
  destruct (truthy (dict_get data "flow")) eqn:Ef.
  - injection He as -> _. left. by cbn.
  - right. destruct (truthy (dict_get data "message")) eqn:Em; [|done].
    destruct (String.eqb_spec (CampaignEvent.event_type inst) TYPE_MESSAGE) as [Et|Et];
      cbn in He; injection He as -> _; cbn; split_and!; try done.
Qed.

(** X14: what was written reads back.  When the two event types differ,
    after a message was saved into an existing event the read serializer
    reports no flow (the hidden single-message flow is not exposed), and
    after a flow was saved it reports the uuid and name of that flow; a unit
    that the write serializer translated from an accepted choice is reported
    as that choice when the internal codes of the config are pairwise
    distinct. *)
Theorem campaign_event_read_after_update
    (UNIT_CONFIG : list (Constants.row string)) (flow_uuid flow_name : pyval → string)
    (context : Context.t) (data : gmap string pyval) (inst : CampaignEvent.t) (db : DB) :
  TYPE_FLOW ≠ TYPE_MESSAGE →
  CampaignEventWriteSerializer.validate data = Return data →
  let e := (CampaignEventWriteSerializer.save TYPE_FLOW TYPE_MESSAGE
              create_single_message update_single_message_flow instance_save
              update_flow_name create_flow_event create_message_event
              context data (Some inst) db).1 in
  let get_flow := CampaignEventReadSerializer.get_flow TYPE_FLOW flow_uuid flow_name in
  (truthy (dict_get data "message") = true → get_flow e = PyNone)
  ∧ (truthy (dict_get data "flow") = true →
     get_flow e
     = PyDict (<["name" := PyStr (flow_name (dict_get data "flow"))]>
               (<["uuid" := PyStr (flow_uuid (dict_get data "flow"))]> ∅)))
  ∧ (∀ value code,
       NoDup (Constants.internal <$> UNIT_CONFIG) →
       CampaignEventWriteSerializer.validate_unit UNIT_CONFIG value = Some code →
       data !! "unit" = Some (PyStr code) →
       CampaignEventReadSerializer.get_unit UNIT_CONFIG e = Some value).
Proof.
  intros Htypes Hvalid. cbn zeta.
  destruct (save_existing_result context data inst db) as (e & db' & -> & He).
  unfold CampaignEventReadSerializer.get_flow, CampaignEventReadSerializer.get_unit.
  cbn.
  unfold CampaignEventWriteSerializer.validate in Hvalid. cbn zeta in Hvalid.
  split_and!.
  - intros Hm. rewrite Hm in Hvalid.
    destruct (truthy (dict_get data "flow")); [done|].
    destruct (String.eqb_spec (CampaignEvent.event_type inst) TYPE_MESSAGE) as [Et|Et];
      cbn in He; injection He as -> _; cbn; rewrite ?Et;
      by destruct (String.eqb_spec TYPE_MESSAGE TYPE_FLOW).
  - intros Hf. rewrite Hf in He. injection He as -> _. cbn.
    by rewrite String.eqb_refl.
  - intros value code Hnd Hcode Hdata. unfold dict_get. rewrite Hdata. cbn.
    by apply units_backward_forward.
Qed.

End campaign_event_update.

Lemma campaign_event_update_exactly_one_witness :
  CampaignEvent.unit
    (CampaignEventWriteSerializer.save "F" "M"
       Sample.create_single_message Sample.update_single_message_flow
       Sample.instance_save Sample.update_flow_name
       Sample.create_event Sample.create_event
       (Sample.context_of Sample.org ∅) Sample.event_payload (Some Sample.event) 0%Z).1
  = dict_get Sample.event_payload "unit".
Proof.
  apply (campaign_event_update_exactly_one "F" "M"
           Sample.create_single_message Sample.update_single_message_flow
           Sample.instance_save Sample.update_flow_name
           Sample.create_event Sample.create_event
           ltac:(reflexivity) ltac:(reflexivity)
           (Sample.context_of Sample.org ∅) Sample.event_payload Sample.event 0%Z).
  vm_compute. reflexivity.
Defined.

Lemma campaign_event_read_after_update_witness :
  CampaignEventReadSerializer.get_flow "F" Sample.flow_uuid Sample.flow_name
    (CampaignEventWriteSerializer.save "F" "M"
       Sample.create_single_message Sample.update_single_message_flow
       Sample.instance_save Sample.update_flow_name
       Sample.create_event Sample.create_event
       (Sample.context_of Sample.org ∅) Sample.event_payload (Some Sample.event) 0%Z).1
  = PyNone.
Proof.
  apply (proj1 (campaign_event_read_after_update "F" "M"
                  Sample.create_single_message Sample.update_single_message_flow
                  Sample.instance_save Sample.update_flow_name
                  Sample.create_event Sample.create_event
                  ltac:(reflexivity) ltac:(reflexivity)
                  Sample.unit_config Sample.flow_uuid Sample.flow_name
                  (Sample.context_of Sample.org ∅) Sample.event_payload Sample.event 0%Z
                  ltac:(discriminate) ltac:(vm_compute; reflexivity))).
  vm_compute. reflexivity.
Defined.

Lemma contact_save_fields_and_groups_witness :
  (ContactWriteSerializer.save (Sample.context_of Sample.org ∅) None
     Sample.get_or_create Sample.contact_update).1
  = Sample.get_or_create Sample.org 7 (Some "Ann") (Some ["tel:+250788000001"])
      (Some "fra").
Proof.
  apply (proj2 (proj2 (contact_save_fields_and_groups (Sample.context_of Sample.org ∅)
                         Sample.get_or_create None Sample.contact_update))).
  reflexivity.
Defined.

Lemma contact_save_writes_changes_witness :
  ∃ uf, ContactWriteSerializer.instance_save uf
        ∈ (ContactWriteSerializer.save (Sample.context_of Sample.org ∅)
             (Some Sample.active_contact) Sample.get_or_create Sample.contact_update).2.
Proof.
  apply (proj2 (proj1 (proj2 (contact_save_writes_changes
                                (Sample.context_of Sample.org ∅) Sample.get_or_create
                                Sample.active_contact Sample.contact_update)))).
  right. split; [eexists; reflexivity | discriminate].
Defined.

(** ** BroadcastWriteSerializer.save and FlowStartWriteSerializer.save *)

Section broadcast_save.
Context {DB Broadcast : Type}.
Variable get_or_create : Org.t → Z → list string → DB → pyval * DB.
Variable urn_object : pyval → string → pyval.
Variable create : Org.t → Z → string → list pyval → option pyval → DB → Broadcast * DB.
Variable broadcast_id : Broadcast → Z.
Variable delay : Z → DB → DB.
Variable context : Context.t.

Lemma broadcast_resolve_urns (urns : list string) (recipients : list pyval) (db : DB) :
  ∃ resolved db1,
    BroadcastWriteSerializer.resolve_urns get_or_create urn_object context
      urns recipients db
    = ((recipients ++ resolved)%list, db1)
    ∧ Forall2 (λ urn r, ∃ db', r = urn_object
                                     (get_or_create (Context.org context)
                                        (Context.user context) [urn] db').1 urn)
              urns resolved
    ∧ (urns = [] → db1 = db).
Proof.
  unfold BroadcastWriteSerializer.resolve_urns.
  revert recipients db. induction urns as [|urn urns IH]; intros recipients db.
  - exists [], db. cbn. by rewrite app_nil_r.
  - cbn [foldl].
    destruct (get_or_create (Context.org context) (Context.user context) [urn] db)
      as [contact db0] eqn:E.
    destruct (IH (recipients ++ [urn_object contact urn])%list db0)
      as (resolved & db1 & -> & Hall & _).
    exists (urn_object contact urn :: resolved), db1. split_and!.
    + by rewrite <- app_assoc.
    + constructor; [|done]. exists db. by rewrite E.
    + done.
Qed.

(** X16: [save] creates the broadcast with the contacts of the payload, then
    its groups, then one contact URN per URN of the payload, in order, each
    taken from the contact that [get_or_create] returned for that URN; the
    send task is queued for the id of the broadcast that was created, after
    its creation; without URNs the database reaches [Broadcast.create]
    untouched. *)
Theorem broadcast_save_recipients (data : BroadcastWriteSerializer.validated_data) (db : DB) :
  ∃ resolved db1,
    Forall2 (λ urn r, ∃ db', r = urn_object
                                     (get_or_create (Context.org context)
                                        (Context.user context) [urn] db').1 urn)
            (default [] (BroadcastWriteSerializer.urns data)) resolved
    ∧ (let created :=
         create (Context.org context) (Context.user context)
           (BroadcastWriteSerializer.text data)
           (default [] (BroadcastWriteSerializer.contacts data)
            ++ default [] (BroadcastWriteSerializer.groups data) ++ resolved)%list
           (BroadcastWriteSerializer.channel data) db1 in
       BroadcastWriteSerializer.save get_or_create urn_object create broadcast_id delay
         context data db
       = (created.1, delay (broadcast_id created.1) created.2))
    ∧ (default [] (BroadcastWriteSerializer.urns data) = [] → db1 = db).
Proof.
  unfold BroadcastWriteSerializer.save.
  destruct (broadcast_resolve_urns (default [] (BroadcastWriteSerializer.urns data))
              (default [] (BroadcastWriteSerializer.contacts data)
               ++ default [] (BroadcastWriteSerializer.groups data))%list db)
    as (resolved & db1 & -> & Hall & Hdb).
  exists resolved, db1. split_and!; [done | | done].
  cbn zeta. rewrite <- app_assoc. by destruct (create _ _ _ _ _ db1).
Qed.

End broadcast_save.

Section flow_start_save.
Context {DB FlowStart : Type}.
Variable get_or_create : Org.t → Z → list string → DB → pyval * DB.
Variable create :
  pyval → Z → bool → list pyval → list pyval → option pyval → DB → FlowStart * DB.
Variable context : Context.t.

Lemma flow_start_resolve_urns (urns : list string) (contacts : list pyval) (db : DB) :
  ∃ resolved db1,
    FlowStartWriteSerializer.resolve_urns get_or_create context urns contacts db
    = ((contacts ++ resolved)%list, db1)
    ∧ Forall2 (λ urn c, ∃ db', c = (get_or_create (Context.org context)
                                       (Context.user context) [urn] db').1)
              urns resolved
    ∧ (urns = [] → db1 = db).
Proof.
  unfold FlowStartWriteSerializer.resolve_urns.
  revert contacts db. induction urns as [|urn urns IH]; intros contacts db.
  - exists [], db. cbn. by rewrite app_nil_r.
  - cbn [foldl].
    destruct (get_or_create (Context.org context) (Context.user context) [urn] db)
      as [contact db0] eqn:E.
    destruct (IH (contacts ++ [contact])%list db0) as (resolved & db1 & -> & Hall & _).
    exists (contact :: resolved), db1. split_and!.
    + by rewrite <- app_assoc.
    + constructor; [|done]. exists db. by rewrite E.
    + done.
Qed.

(** X17: [save] creates the flow start with the contacts of the payload
    followed by one contact per URN of the payload, in order, and with the
    groups and extra of the payload; [restart_participants] is [True] when the
    payload omits it; without URNs the database reaches [FlowStart.create]
    untouched. *)
Theorem flow_start_save_contacts (data : FlowStartWriteSerializer.validated_data) (db : DB) :
  ∃ resolved db1,
    Forall2 (λ urn c, ∃ db', c = (get_or_create (Context.org context)
                                     (Context.user context) [urn] db').1)
            (default [] (FlowStartWriteSerializer.urns data)) resolved
    ∧ FlowStartWriteSerializer.save get_or_create create context data db
      = create (FlowStartWriteSerializer.flow data) (Context.user context)
          (match FlowStartWriteSerializer.restart_participants data with
           | Some b => b
           | None => true
           end)
          (default [] (FlowStartWriteSerializer.contacts data) ++ resolved)%list
          (default [] (FlowStartWriteSerializer.groups data))
          (FlowStartWriteSerializer.extra data) db1
    ∧ (default [] (FlowStartWriteSerializer.urns data) = [] → db1 = db).
Proof.
  unfold FlowStartWriteSerializer.save.
  destruct (flow_start_resolve_urns (default [] (FlowStartWriteSerializer.urns data))
              (default [] (FlowStartWriteSerializer.contacts data)) db)
    as (resolved & db1 & -> & Hall & Hdb).
  exists resolved, db1. split_and!; [done | | done].
  by destruct (FlowStartWriteSerializer.restart_participants data).
Qed.

End flow_start_save.
